(** * InterviewCoach: the upload / validate / encode / submit pipeline

  A shallow embedding of
  - [components/VideoUploader.tsx]  ([validateFile] and the uploader's state),
  - [services/geminiService.ts]     ([analysisSchema], [fileToGenerativePart],
                                     [analyzeInterview]),
  - [App.tsx]                       ([handleAnalyze], [handleReset]),
  - [types.ts]                      ([UploadStatus], the report interfaces),
  together with the browser functions these call ([String.prototype.split],
  [startsWith], [FileReader.readAsDataURL], [JSON.parse]). *)

From Stdlib Require Import Bool Ascii String List NArith ZArith Lia.
From Stdlib.Strings Require Import Byte.
From Stdlib Require Import DecimalString.
Import ListNotations.

Local Open Scope string_scope.
Set Warnings "-register-all".


(** ** JavaScript values used by the program *)

Module Js.

(** A one-character string for a character code; used for the characters
    that cannot be written inside a string literal. *)
Definition chr (n : nat) : string := String (ascii_of_nat n) EmptyString.

Definition dquote : string := chr 34.
Definition newline : string := chr 10.

(** [s.startsWith(p)] *)
Definition startsWith (s p : string) : bool := String.prefix p s.

(** Truthiness of a [string | undefined] value: [undefined] and the empty
    string are falsy, every other string is truthy. *)
Definition truthy (v : option string) : bool :=
  match v with
  | None => false
  | Some s => negb (s =? EmptyString)
  end.

(** [a || b] on strings. *)
Definition or_else (a : option string) (b : string) : string :=
  match a with
  | Some s => if s =? EmptyString then b else s
  | None => b
  end.

(** [s.split(sep)] for a one-character separator: the pieces between the
    occurrences of [sep]; always at least one piece. *)
Fixpoint split (sep : ascii) (s : string) : list string :=
  match s with
  | EmptyString => [EmptyString]
  | String c rest =>
      if Ascii.eqb c sep then EmptyString :: split sep rest
      else match split sep rest with
           | [] => [String c EmptyString]
           | piece :: pieces => String c piece :: pieces
           end
  end.

(** [xs[i]]: [undefined] out of range. *)
Definition index {A} (xs : list A) (i : nat) : option A := nth_error xs i.

(** Template-literal interpolation of a non-negative integer. *)
Definition number_to_string (n : N) : string :=
  NilEmpty.string_of_uint (N.to_uint n).

(** Does the character occur in the string? *)
Fixpoint occurs (c : ascii) (s : string) : bool :=
  match s with
  | EmptyString => false
  | String d rest => Ascii.eqb d c || occurs c rest
  end.

(** Writing aid for texts full of quotation marks: every apostrophe of [s]
    stands for a double quote. *)
Fixpoint quotes (s : string) : string :=
  match s with
  | EmptyString => EmptyString
  | String c rest =>
      String (if Ascii.eqb c "'" then ascii_of_nat 34 else c) (quotes rest)
  end.

End Js.

(** ** Files

  A [File] as the program reads it: [file.name], [file.type], [file.size],
  and the bytes a [FileReader] delivers. *)

Record File := mkFile {
file_name : string;
file_type : string;
file_size : N;
file_bytes : list byte
}.

(** ** components/VideoUploader.tsx *)

Module VideoUploader.

Definition MAX_SIZE_MB : N := 50.

(** The uploader's [useState] slots. *)
Record State := mkState {
  error : option string;
  dragActive : bool
}.

Definition setError (v : option string) (st : State) : State :=
  {| error := v; dragActive := dragActive st |}.

Definition setDragActive (v : bool) (st : State) : State :=
  {| error := error st; dragActive := v |}.

Definition type_mismatch_reason : string :=
  "Please upload a valid video file (MP4, WebM, MOV).".

Definition size_limit_reason : string :=
  "File size exceeds the " ++ Js.number_to_string MAX_SIZE_MB
    ++ "MB limit for this demo.".

(** [validateFile]: the boolean it returns and the component state it
    leaves behind. *)
Definition validateFile (file : File) (st : State) : bool * State :=
  let st := setError None st in
  if negb (Js.startsWith (file_type file) "video/") then
    (false, setError (Some type_mismatch_reason) st)
  else if (MAX_SIZE_MB * 1024 * 1024 <? file_size file)%N then
    (false, setError (Some size_limit_reason) st)
  else
    (true, st).

(** The verdict as the reader of the spec sees it. *)
Inductive Verdict := Accept | Reject (reason : string).

Definition verdict (r : bool * State) : Verdict :=
  match r with
  | (true, _) => Accept
  | (false, st) =>
      match error st with
      | Some reason => Reject reason
      | None => Reject EmptyString
      end
  end.

(** The rule list read literally from the specification: the type test is
    "begins with [video]", the ceiling is 50 MiB. *)
Definition validateFile_spec (file : File) : Verdict :=
  if negb (Js.startsWith (file_type file) "video") then
    Reject type_mismatch_reason
  else if (50 * 1024 * 1024 <? file_size file)%N then
    Reject size_limit_reason
  else Accept.

(** The specification's second testable property read literally: an
    oversized file is rejected for its size whatever its type. *)
Definition oversize_rejected_for_size (file : File) (st : State) : Prop :=
  (50 * 1024 * 1024 < file_size file)%N ->
  verdict (validateFile file st) = Reject size_limit_reason.

(** Purity as the specification words it: validation leaves the component
    state as it found it. *)
Definition leaves_state_unchanged (file : File) (st : State) : Prop :=
  snd (validateFile file st) = st.

End VideoUploader.

(** ** Base64 (RFC 4648), as the browser's data-URL writer produces it *)

Module Base64.

(** Six bits, most significant first. *)
Definition sextet : Type := (bool * bool * bool * bool * bool * bool)%type.

Definition alphabet : string :=
  "ABCDEFGHIJKLMNOPQRSTUVWXYZabcdefghijklmnopqrstuvwxyz0123456789+/".

Definition pad : ascii := "="%char.

Definition bit (b : bool) (weight : nat) : nat := if b then weight else 0.

Definition sextet_value (s : sextet) : nat :=
  let '(b5, b4, b3, b2, b1, b0) := s in
  bit b5 32 + bit b4 16 + bit b3 8 + bit b2 4 + bit b1 2 + bit b0 1.

Definition sextet_of_value (n : nat) : sextet :=
  (Nat.testbit n 5, Nat.testbit n 4, Nat.testbit n 3,
   Nat.testbit n 2, Nat.testbit n 1, Nat.testbit n 0).

Definition enc_char (s : sextet) : ascii :=
  match String.get (sextet_value s) alphabet with
  | Some c => c
  | None => pad
  end.

Fixpoint position (c : ascii) (s : string) : option nat :=
  match s with
  | EmptyString => None
  | String d rest =>
      if Ascii.eqb d c then Some 0
      else option_map S (position c rest)
  end.

Definition dec_char (c : ascii) : option sextet :=
  option_map sextet_of_value (position c alphabet).

(** Three bytes are cut into four sextets; a missing byte counts as zero. *)
Definition sextets (a b c : byte) : sextet * sextet * sextet * sextet :=
  let '(a0, (a1, (a2, (a3, (a4, (a5, (a6, a7))))))) := Byte.to_bits a in
  let '(b0, (b1, (b2, (b3, (b4, (b5, (b6, b7))))))) := Byte.to_bits b in
  let '(c0, (c1, (c2, (c3, (c4, (c5, (c6, c7))))))) := Byte.to_bits c in
  ((a7, a6, a5, a4, a3, a2),
   (a1, a0, b7, b6, b5, b4),
   (b3, b2, b1, b0, c7, c6),
   (c5, c4, c3, c2, c1, c0)).

Definition bytes_of_sextets (s1 s2 s3 s4 : sextet) : byte * byte * byte :=
  let '(a7, a6, a5, a4, a3, a2) := s1 in
  let '(a1, a0, b7, b6, b5, b4) := s2 in
  let '(b3, b2, b1, b0, c7, c6) := s3 in
  let '(c5, c4, c3, c2, c1, c0) := s4 in
  (Byte.of_bits (a0, (a1, (a2, (a3, (a4, (a5, (a6, a7))))))),
   Byte.of_bits (b0, (b1, (b2, (b3, (b4, (b5, (b6, b7))))))),
   Byte.of_bits (c0, (c1, (c2, (c3, (c4, (c5, (c6, c7)))))))).

Definition quad (c1 c2 c3 c4 : ascii) (rest : string) : string :=
  String c1 (String c2 (String c3 (String c4 rest))).

Fixpoint encode (bs : list byte) : string :=
  match bs with
  | [] => EmptyString
  | [a] =>
      let '(s1, s2, _, _) := sextets a x00 x00 in
      quad (enc_char s1) (enc_char s2) pad pad EmptyString
  | [a; b] =>
      let '(s1, s2, s3, _) := sextets a b x00 in
      quad (enc_char s1) (enc_char s2) (enc_char s3) pad EmptyString
  | a :: b :: c :: rest =>
      let '(s1, s2, s3, s4) := sextets a b c in
      quad (enc_char s1) (enc_char s2) (enc_char s3) (enc_char s4)
           (encode rest)
  end.

Definition zero6 : sextet := (false, false, false, false, false, false).

(** Decoding of padded base64 text; [None] on text that is not base64. *)
Fixpoint decode (s : string) : option (list byte) :=
  match s with
  | EmptyString => Some []
  | String c1 (String c2 (String c3 (String c4 rest))) =>
      match dec_char c1, dec_char c2 with
      | Some s1, Some s2 =>
          if Ascii.eqb c4 pad then
            match rest with
            | EmptyString =>
                if Ascii.eqb c3 pad then
                  let '(a, _, _) := bytes_of_sextets s1 s2 zero6 zero6 in
                  Some [a]
                else
                  match dec_char c3 with
                  | Some s3 =>
                      let '(a, b, _) := bytes_of_sextets s1 s2 s3 zero6 in
                      Some [a; b]
                  | None => None
                  end
            | String _ _ => None
            end
          else
            match dec_char c3, dec_char c4, decode rest with
            | Some s3, Some s4, Some more =>
                let '(a, b, c) := bytes_of_sextets s1 s2 s3 s4 in
                Some (a :: b :: c :: more)
            | _, _, _ => None
            end
      | _, _ => None
      end
  | _ => None
  end.

End Base64.

(** ** The browser's [FileReader] *)

Module FileReader.

(** [reader.result] after a completed [readAsDataURL(file)]: the data URL
    [data:<type>;base64,<payload>] of the File API. *)
Definition dataURL (file : File) : string :=
  "data:" ++ file_type file ++ ";base64," ++ Base64.encode (file_bytes file).

(** The header a consumer puts back in front of a bare payload. *)
Definition header (mimeType : string) : string :=
  "data:" ++ mimeType ++ ";base64,".

(** Reading a data URL back: the bytes behind the header, when the text is
    the header for [mimeType] followed by base64. *)
Fixpoint strip_prefix (p s : string) : option string :=
  match p, s with
  | EmptyString, _ => Some s
  | String a p', String b s' =>
      if Ascii.eqb a b then strip_prefix p' s' else None
  | String _ _, EmptyString => None
  end.

Definition decode_dataURL (mimeType url : string) : option (list byte) :=
  match strip_prefix (header mimeType) url with
  | Some payload => Base64.decode payload
  | None => None
  end.

End FileReader.

(** ** JSON values and the browser's [JSON.parse]

    Numbers are kept as exact decimals [mantissa * 10 ^ exponent], an integer
    [n] being [Number n 0] (an integer literal below 2^53 denotes the same
    number in JavaScript); strings are byte strings, a [\uXXXX] escape being
    written out in UTF-8. *)

Module Json.

Inductive value :=
| Null
| Bool (b : bool)
| Number (mantissa exponent : Z)
| Str (s : string)
| Array (items : list value)
| Object (members : list (string * value)).

(** Property read [o[k]]; [None] is JavaScript's [undefined]. *)
Fixpoint lookup (k : string) (members : list (string * value)) : option value :=
  match members with
  | [] => None
  | (k', v) :: rest => if k' =? k then Some v else lookup k rest
  end.

Definition get (k : string) (v : value) : option value :=
  match v with
  | Object members => lookup k members
  | _ => None
  end.

(** Property write: a repeated key keeps its place and takes the new value. *)
Fixpoint set_member (k : string) (v : value) (members : list (string * value))
  : list (string * value) :=
  match members with
  | [] => [(k, v)]
  | (k', v') :: rest =>
      if k' =? k then (k', v) :: rest else (k', v') :: set_member k v rest
  end.

Definition is_ws (c : ascii) : bool :=
  let n := nat_of_ascii c in
  (n =? 32)%nat || (n =? 9)%nat || (n =? 10)%nat || (n =? 13)%nat.

Fixpoint skip_ws (s : string) : string :=
  match s with
  | String c rest => if is_ws c then skip_ws rest else s
  | EmptyString => s
  end.

Definition digit (c : ascii) : option Z :=
  let n := nat_of_ascii c in
  if ((48 <=? n) && (n <=? 57))%nat then Some (Z.of_nat (n - 48)) else None.

(** The longest run of digits at the head of [s]: its value on top of [acc],
    the number of digits read, and the rest. *)
Fixpoint digits (acc : Z) (count : nat) (s : string) : Z * nat * string :=
  match s with
  | String c rest =>
      match digit c with
      | Some d => digits (acc * 10 + d) (S count) rest
      | None => (acc, count, s)
      end
  | EmptyString => (acc, count, s)
  end.

(** Canonical form of [m * 10 ^ e]: an integer is written with exponent 0,
    any other decimal with a mantissa that does not end in 0. *)
Fixpoint normalise (fuel : nat) (m e : Z) : Z * Z :=
  match fuel with
  | O => (m, e)
  | S fuel =>
      if (0 <=? e)%Z then ((m * 10 ^ e)%Z, 0%Z)
      else if (m mod 10 =? 0)%Z then normalise fuel (m / 10)%Z (e + 1)%Z
      else (m, e)
  end.

Definition parse_exponent (s : string) : option (Z * string) :=
  match s with
  | String c rest =>
      if (Ascii.eqb c "e" || Ascii.eqb c "E")%bool then
        let '(sign, rest) :=
          match rest with
          | String "+" r => (1%Z, r)
          | String "-" r => ((-1)%Z, r)
          | _ => (1%Z, rest)
          end in
        match digits 0 0 rest with
        | (_, O, _) => None
        | (e, S _, rest') => Some ((sign * e)%Z, rest')
        end
      else Some (0%Z, s)
  | EmptyString => Some (0%Z, s)
  end.

Definition parse_fraction (int : Z) (s : string) : option (Z * nat * string) :=
  match s with
  | String "." rest =>
      match digits int 0 rest with
      | (_, O, _) => None
      | (m, S k, rest') => Some (m, S k, rest')
      end
  | _ => Some (int, O, s)
  end.

Definition parse_number (s : string) : option (value * string) :=
  let '(sign, s) :=
    match s with
    | String "-" r => ((-1)%Z, r)
    | _ => (1%Z, s)
    end in
  let int :=
    match s with
    | String "0" r => Some (0%Z, 1%nat, r)
    | _ => match digits 0 0 s with
           | (_, O, _) => None
           | (n, S k, r) => Some (n, S k, r)
           end
    end in
  match int with
  | None => None
  | Some (n, k, r) =>
      match parse_fraction n r with
      | None => None
      | Some (m, f, r) =>
          match parse_exponent r with
          | None => None
          | Some (e, r) =>
              let '(m, e) := normalise (S (k + f)) (sign * m)%Z (e - Z.of_nat f)%Z in
              Some (Number m e, r)
          end
      end
  end.

Definition hex (c : ascii) : option nat :=
  let n := nat_of_ascii c in
  if ((48 <=? n) && (n <=? 57))%nat then Some (n - 48)%nat
  else if ((65 <=? n) && (n <=? 70))%nat then Some (n - 55)%nat
  else if ((97 <=? n) && (n <=? 102))%nat then Some (n - 87)%nat
  else None.

(** UTF-8 for one code unit below 2^16. *)
Definition utf8 (u : nat) : string :=
  if (u <? 128)%nat then Js.chr u
  else if (u <? 2048)%nat then
    Js.chr (192 + u / 64) ++ Js.chr (128 + u mod 64)
  else
    Js.chr (224 + u / 4096) ++ Js.chr (128 + (u / 64) mod 64)
      ++ Js.chr (128 + u mod 64).

Definition escape (c : ascii) : option string :=
  let n := nat_of_ascii c in
  if (n =? 34)%nat then Some Js.dquote
  else if (n =? 92)%nat then Some (Js.chr 92)
  else if (n =? 47)%nat then Some "/"
  else if (n =? 98)%nat then Some (Js.chr 8)
  else if (n =? 102)%nat then Some (Js.chr 12)
  else if (n =? 110)%nat then Some (Js.chr 10)
  else if (n =? 114)%nat then Some (Js.chr 13)
  else if (n =? 116)%nat then Some (Js.chr 9)
  else None.

(** The body of a string literal, after its opening quote. *)
Fixpoint parse_string (s : string) : option (string * string) :=
  match s with
  | EmptyString => None
  | String c rest =>
      let n := nat_of_ascii c in
      if (n =? 34)%nat then Some (EmptyString, rest)
      else if (n <? 32)%nat then None
      else if (n =? 92)%nat then
        match rest with
        | String "u" (String h1 (String h2 (String h3 (String h4 rest')))) =>
            match hex h1, hex h2, hex h3, hex h4, parse_string rest' with
            | Some a, Some b, Some c', Some d, Some (str, r) =>
                Some (utf8 (((a * 16 + b) * 16 + c') * 16 + d) ++ str, r)
            | _, _, _, _, _ => None
            end
        | String e rest' =>
            match escape e, parse_string rest' with
            | Some t, Some (str, r) => Some (t ++ str, r)
            | _, _ => None
            end
        | EmptyString => None
        end
      else
        match parse_string rest with
        | Some (str, r) => Some (String c str, r)
        | None => None
        end
  end.

Definition literal (word : string) (v : value) (s : string)
  : option (value * string) :=
  match FileReader.strip_prefix word s with
  | Some rest => Some (v, rest)
  | None => None
  end.

Fixpoint parse_value (fuel : nat) (s : string) : option (value * string) :=
  match fuel with
  | O => None
  | S fuel =>
      match skip_ws s with
      | EmptyString => None
      | String c rest as s' =>
          let n := nat_of_ascii c in
          if (n =? 34)%nat then
            match parse_string rest with
            | Some (str, r) => Some (Str str, r)
            | None => None
            end
          else if (n =? 91)%nat then
            match skip_ws rest with
            | String "]" r => Some (Array [], r)
            | _ => parse_elements fuel rest []
            end
          else if (n =? 123)%nat then
            match skip_ws rest with
            | String "}" r => Some (Object [], r)
            | _ => parse_members fuel rest []
            end
          else if (n =? 110)%nat then literal "null" Null s'
          else if (n =? 116)%nat then literal "true" (Bool true) s'
          else if (n =? 102)%nat then literal "false" (Bool false) s'
          else parse_number s'
      end
  end
with parse_elements (fuel : nat) (s : string) (acc : list value)
  : option (value * string) :=
  match fuel with
  | O => None
  | S fuel =>
      match parse_value fuel s with
      | Some (v, r) =>
          match skip_ws r with
          | String "," r' => parse_elements fuel r' (v :: acc)
          | String "]" r' => Some (Array (rev (v :: acc)), r')
          | _ => None
          end
      | None => None
      end
  end
with parse_members (fuel : nat) (s : string) (acc : list (string * value))
  : option (value * string) :=
  match fuel with
  | O => None
  | S fuel =>
      match skip_ws s with
      | String q rest =>
          if (nat_of_ascii q =? 34)%nat then
            match parse_string rest with
            | Some (k, r) =>
                match skip_ws r with
                | String ":" r' =>
                    match parse_value fuel r' with
                    | Some (v, r'') =>
                        match skip_ws r'' with
                        | String "," r3 =>
                            parse_members fuel r3 (set_member k v acc)
                        | String "}" r3 =>
                            Some (Object (set_member k v acc), r3)
                        | _ => None
                        end
                    | None => None
                    end
                | _ => None
                end
            | None => None
            end
          else None
      | EmptyString => None
      end
  end.

(** [JSON.parse(text)]; [None] stands for the [SyntaxError] it throws. *)
Definition parse (text : string) : option value :=
  match parse_value (2 * String.length text + 2) text with
  | Some (v, rest) =>
      match skip_ws rest with
      | EmptyString => Some v
      | String _ _ => None
      end
  | None => None
  end.

End Json.

(** ** The [@google/genai] types the service uses *)

Module GenAI.

Inductive Type_ := OBJECT | INTEGER | STRING | ARRAY.

Inductive Schema :=
| mkSchema (type : Type_)
           (description : option string)
           (properties : list (string * Schema))
           (items : option Schema)
           (enum : list string)
           (required : list string).

Definition present (o : option Json.value) : bool :=
  match o with Some _ => true | None => false end.

(** What it means for a JSON value to match a schema: the type fits, an
    enumerated string is one of the listed ones, every required property is
    there, and properties and items match their own schemas. *)
Fixpoint conforms (sc : Schema) (v : Json.value) : bool :=
  match sc with
  | mkSchema ty _ properties items enum required =>
      match ty, v with
      | INTEGER, Json.Number _ e => (0 <=? e)%Z
      | STRING, Json.Str s =>
          match enum with
          | [] => true
          | _ :: _ => existsb (String.eqb s) enum
          end
      | ARRAY, Json.Array vs =>
          match items with
          | Some item => forallb (conforms item) vs
          | None => true
          end
      | OBJECT, Json.Object members =>
          forallb (fun k => present (Json.lookup k members)) required
          && forallb (fun p =>
                        match Json.lookup (fst p) members with
                        | Some x => conforms (snd p) x
                        | None => true
                        end) properties
      | _, _ => false
      end
  end.

Record InlineData := mkInlineData {
  mimeType : string;
  data : option string            (* [undefined] when the split has no piece 1 *)
}.

Inductive Part :=
| InlineDataPart (inlineData : InlineData)
| TextPart (text : string).

Record GenerationConfig := mkConfig {
  responseMimeType : string;
  responseSchema : Schema;
  temperature : Z * Z             (* decimal: mantissa, exponent *)
}.

Record GenerateContentParameters := mkParameters {
  model : string;
  contents : list Part;
  config : GenerationConfig
}.

Record GenerateContentResponse := mkResponse {
  response_text : option string   (* [response.text] *)
}.

End GenAI.

(** ** Effects: thrown values, outcomes, and the events a call leaves behind *)

Inductive Thrown :=
| ErrorObject (name message : string)   (* an [Error] or one of its subclasses *)
| ProgressEvent.                        (* what [reader.onerror] is handed *)

(** [error.message] *)
Definition message_of (e : Thrown) : option string :=
  match e with
  | ErrorObject _ m => Some m
  | ProgressEvent => None
  end.

Inductive Outcome (A : Type) :=
| Return (a : A)
| Throw (e : Thrown).
Arguments Return {A} a.
Arguments Throw {A} e.

Inductive Event :=
| FileRead (file : File)
| NetworkCall (request : GenAI.GenerateContentParameters)
| ConsoleError (label : string) (cause : Thrown).

(** A computation yields an outcome and the events it emitted, in order;
    events emitted before a throw stay emitted. *)
Definition M (A : Type) : Type := (Outcome A * list Event)%type.

Definition ret {A} (a : A) : M A := (Return a, []).
Definition throw {A} (e : Thrown) : M A := (Throw e, []).
Definition emit (ev : Event) : M unit := (Return tt, [ev]).

Definition bind {A B} (m : M A) (k : A -> M B) : M B :=
  match m with
  | (Return a, evs) => let '(r, evs') := k a in (r, (evs ++ evs')%list)
  | (Throw e, evs) => (Throw e, evs)
  end.

Definition try_catch {A} (body : M A) (handler : Thrown -> M A) : M A :=
  match body with
  | (Return a, evs) => (Return a, evs)
  | (Throw e, evs) => let '(r, evs') := handler e in (r, (evs ++ evs')%list)
  end.

Declare Scope js_scope.
Delimit Scope js_scope with js.
Notation "x <- m ;; k" := (bind m (fun x => k))
  (at level 61, m at next level, right associativity) : js_scope.
Notation "m ;; k" := (bind m (fun _ => k))
  (at level 61, right associativity) : js_scope.

Fixpoint network_calls (evs : list Event) : nat :=
  match evs with
  | [] => 0
  | NetworkCall _ :: rest => S (network_calls rest)
  | _ :: rest => network_calls rest
  end.

(** What the program finds around it: the configured credential, whether the
    reader completes a read, and how the remote service answers a request. *)
Record Env := mkEnv {
  API_KEY : option string;
  readable : File -> bool;
  generateContent :
    GenAI.GenerateContentParameters -> Outcome GenAI.GenerateContentResponse
}.

(** ** services/geminiService.ts *)

Module GeminiService.
Import GenAI.
Local Open Scope js_scope.

Definition str (description : string) : Schema :=
  mkSchema STRING (Some description) [] None [] [].

(** [analysisSchema] *)
Definition analysisSchema : Schema :=
  mkSchema OBJECT None
    [ ("overallScore",
       mkSchema INTEGER
         (Some "A score from 0 to 100 based on overall performance.")
         [] None [] []);
      ("summary",
       str "A brief executive summary of the candidate's performance.");
      ("strengths",
       mkSchema ARRAY (Some "List of 3-5 key strengths observed.")
         [] (Some (mkSchema STRING None [] None [] [])) [] []);
      ("weaknesses",
       mkSchema ARRAY (Some "List of 3-5 key areas for improvement.")
         [] (Some (mkSchema STRING None [] None [] [])) [] []);
      ("actionableTips",
       mkSchema ARRAY
         (Some "Specific, actionable advice for the next interview.")
         [] (Some (mkSchema STRING None [] None [] [])) [] []);
      ("categories",
       mkSchema ARRAY None []
         (Some
            (mkSchema OBJECT None
               [ ("name",
                  str "Category name (e.g., Verbal Communication, Body Language, Content Relevance, Visual Aids/Screen Share)");
                 ("score",
                  mkSchema INTEGER (Some "Score 0-100 for this category")
                    [] None [] []);
                 ("feedback", str "Specific feedback for this category");
                 ("status",
                  mkSchema STRING None [] None
                    ["excellent"; "good"; "needs_improvement"] []) ]
               None []
               ["name"; "score"; "feedback"; "status"]))
         [] []) ]
    None []
    ["overallScore"; "summary"; "strengths"; "weaknesses"; "actionableTips";
     "categories"].

Definition missing_key_error : Thrown :=
  ErrorObject "Error" "API Key is missing. Please set it in the environment.".

Definition no_text_error : Thrown :=
  ErrorObject "Error" "No response text received from Gemini.".

Definition analysis_failed_error : Thrown :=
  ErrorObject "Error"
    "Failed to analyze the video. The file might be too large or the format unsupported.".

(** What [JSON.parse] throws. *)
Definition syntax_error : Thrown :=
  ErrorObject "SyntaxError" "Unexpected token in JSON".

Definition default_description : string := "General Software Engineering Role".

(** The lines of the template literal up to the opening quotation mark. *)
Definition prompt_head_lines : list string :=
  [ EmptyString;
    "    You are an expert Interview Coach and Technical Recruiter.";
    "    Review the uploaded video which contains an interview practice session.";
    "    The video may include audio, webcam footage, and screen sharing.";
    "    ";
    "    The user is applying for a role described as:";
    "    " ].

(** The lines of the template literal after the closing quotation mark. *)
Definition prompt_tail_lines : list string :=
  [ EmptyString;
    EmptyString;
    "    Please analyze the video for:";
    "    1. Verbal Communication: Clarity, pace, tone, filler words.";
    "    2. Non-Verbal Communication: Eye contact, body language, confidence (if camera is on).";
    "    3. Content Quality: Relevance to the job description, technical depth, structure of answers.";
    "    4. Screen Share / Visuals: If they are sharing their screen, assess the clarity of their walkthrough and code/presentation.";
    EmptyString;
    "    Provide a structured JSON response evaluating these areas.";
    "  " ].

Definition unlines (ls : list string) : string := String.concat Js.newline ls.

Definition prompt_head : string := unlines prompt_head_lines ++ Js.dquote.
Definition prompt_tail : string := Js.dquote ++ unlines prompt_tail_lines.

(** The template literal [prompt]. *)
Definition prompt (jobDescription : string) : string :=
  prompt_head
    ++ Js.or_else (Some jobDescription) default_description
    ++ prompt_tail.

(** [fileToGenerativePart]: the promise resolves from [onloadend] with the
    second piece of the data URL, or is rejected from [onerror] with the
    reader's error event. *)
Definition fileToGenerativePart (env : Env) (file : File) : M InlineData :=
  emit (FileRead file) ;;
  if readable env file then
    let base64String := FileReader.dataURL file in
    let base64Data := Js.index (Js.split "," base64String) 1 in
    ret {| mimeType := file_type file; data := base64Data |}
  else
    throw ProgressEvent.

(** The argument of [ai.models.generateContent]. *)
Definition parameters (base64Data : InlineData) (prompt : string)
  : GenerateContentParameters :=
  {| model := "gemini-2.5-flash";
     contents := [ InlineDataPart base64Data; TextPart prompt ];
     config := {| responseMimeType := "application/json";
                  responseSchema := analysisSchema;
                  temperature := (4, -1)%Z |} |}.

(** The awaited call: one network request, then its answer or rejection. *)
Definition call_generateContent (env : Env) (p : GenerateContentParameters)
  : M GenerateContentResponse :=
  emit (NetworkCall p) ;;
  (generateContent env p, []).

(** [analyzeInterview] *)
Definition analyzeInterview (env : Env) (videoFile : File)
    (jobDescription : string) : M Json.value :=
  let apiKey := API_KEY env in
  if negb (Js.truthy apiKey) then
    throw missing_key_error
  else
    base64Data <- fileToGenerativePart env videoFile ;;
    let prompt := prompt jobDescription in
    try_catch
      (response <- call_generateContent env (parameters base64Data prompt) ;;
       if Js.truthy (response_text response) then
         match response_text response with
         | Some text =>
             match Json.parse text with
             | Some v => ret v
             | None => throw syntax_error
             end
         | None => throw no_text_error
         end
       else
         throw no_text_error)
      (fun error =>
         emit (ConsoleError "Gemini Analysis Error:" error) ;;
         throw analysis_failed_error).

(** The part the encoder hands on for a file it could read, and the request
    [analyzeInterview] then sends. *)
Definition encoded (file : File) : InlineData :=
  {| mimeType := file_type file;
     data := Js.index (Js.split "," (FileReader.dataURL file)) 1 |}.

Definition sent_request (file : File) (jobDescription : string)
  : GenerateContentParameters :=
  parameters (encoded file) (prompt jobDescription).

(** The failures of the remote step, each with the cause the [catch] block
    sees: the call is rejected, the answer has no text, or the text is not
    JSON. *)
Inductive RemoteFailure (env : Env) (request : GenerateContentParameters)
  : Thrown -> Prop :=
| network_failure (e : Thrown) :
    generateContent env request = Throw e ->
    RemoteFailure env request e
| absent_body (r : GenerateContentResponse) :
    generateContent env request = Return r ->
    Js.truthy (response_text r) = false ->
    RemoteFailure env request no_text_error
| parse_failure (r : GenerateContentResponse) (text : string) :
    generateContent env request = Return r ->
    response_text r = Some text ->
    text <> EmptyString ->
    Json.parse text = None ->
    RemoteFailure env request syntax_error.

End GeminiService.

(** ** Sample surroundings and responses *)

Module Samples.
Import GenAI.

(** A configured credential, a readable file, and a service that answers
    every request with [text]. *)
Definition answering (text : string) : Env :=
  {| API_KEY := Some "configured-key";
     readable := fun _ => true;
     generateContent := fun _ => Return {| response_text := Some text |} |}.

(** No credential; the reader and the service would both work. *)
Definition unconfigured : Env :=
  {| API_KEY := None;
     readable := fun _ => true;
     generateContent := fun _ => Return {| response_text := Some "{}" |} |}.

(** A credential, a readable file, and a service that rejects the call. *)
Definition offline : Env :=
  {| API_KEY := Some "configured-key";
     readable := fun _ => true;
     generateContent := fun _ => Throw (ErrorObject "TypeError" "Failed to fetch") |}.

Definition clip : File :=
  mkFile "practice.mp4" "video/mp4" 3 [x4d; x61; x6e].

(** A recording whose type carries a codecs parameter. *)
Definition recording : File :=
  mkFile "practice.webm" "video/webm;codecs=vp8,opus" 3 [x4d; x61; x6e].

(** The response of the specification's example. *)
Definition solid_response : string :=
  Js.quotes
    "{'overallScore':82,'summary':'Solid','strengths':['Clear speech'],'weaknesses':['Rambling'],'actionableTips':['Be concise'],'categories':[{'name':'Verbal Communication','score':80,'feedback':'Good pace','status':'good'}]}".

(** Valid JSON with an overall score of 150. *)
Definition overscored_response : string :=
  Js.quotes
    "{'overallScore':150,'summary':'Solid','strengths':[],'weaknesses':[],'actionableTips':[],'categories':[{'name':'Verbal Communication','score':80,'feedback':'Good pace','status':'good'}]}".

(** Valid JSON with a status outside the enumeration. *)
Definition unlisted_status_response : string :=
  Js.quotes
    "{'overallScore':82,'summary':'Solid','strengths':[],'weaknesses':[],'actionableTips':[],'categories':[{'name':'Verbal Communication','score':80,'feedback':'Good pace','status':'superb'}]}".

(** Valid JSON with no category at all. *)
Definition no_category_response : string :=
  Js.quotes
    "{'overallScore':82,'summary':'Solid','strengths':[],'weaknesses':[],'actionableTips':[],'categories':[]}".

End Samples.

(** ** types.ts *)

Module Types.

Inductive UploadStatus := IDLE | UPLOADING | READY | ERROR.

(** The fields of [InterviewAnalysis] and [AssessmentCategory]: the cast
    [as InterviewAnalysis] changes nothing at run time, so a report is the
    parsed value and a field is a property read. *)
Definition InterviewAnalysis : Type := Json.value.

Definition overallScore (r : InterviewAnalysis) := Json.get "overallScore" r.
Definition summary (r : InterviewAnalysis) := Json.get "summary" r.
Definition strengths (r : InterviewAnalysis) := Json.get "strengths" r.
Definition weaknesses (r : InterviewAnalysis) := Json.get "weaknesses" r.
Definition actionableTips (r : InterviewAnalysis) := Json.get "actionableTips" r.
Definition categories (r : InterviewAnalysis) := Json.get "categories" r.
Definition transcriptSnippet (r : InterviewAnalysis) :=
  Json.get "transcriptSnippet" r.

Definition name (c : Json.value) := Json.get "name" c.
Definition score (c : Json.value) := Json.get "score" c.
Definition feedback (c : Json.value) := Json.get "feedback" c.
Definition status (c : Json.value) := Json.get "status" c.

(** The report-shape invariants of the specification's data model: scores
    are integers in [0, 100], a status is one of the three listed words, and
    there is at least one category. *)
Definition score_in_range (o : option Json.value) : bool :=
  match o with
  | Some (Json.Number m e) =>
      ((0 <=? e) && (0 <=? m * 10 ^ e) && (m * 10 ^ e <=? 100))%Z
  | _ => false
  end.

Definition status_listed (o : option Json.value) : bool :=
  match o with
  | Some (Json.Str s) =>
      existsb (String.eqb s) ["excellent"; "good"; "needs_improvement"]
  | _ => false
  end.

Definition category_ok (c : Json.value) : bool :=
  score_in_range (score c) && status_listed (status c).

Definition report_invariants (r : InterviewAnalysis) : bool :=
  score_in_range (overallScore r)
  && match categories r with
     | Some (Json.Array (c :: cs)) => forallb category_ok (c :: cs)
     | _ => false
     end.

End Types.

(** ** App.tsx *)

Module App.
Import Types.

(** The component's [useState] slots. *)
Record State := mkState {
  videoFile : option File;
  jobDescription : string;
  status : UploadStatus;
  analysisResult : option InterviewAnalysis;
  errorMessage : option string
}.

Definition initial : State :=
  {| videoFile := None;
     jobDescription := EmptyString;
     status := IDLE;
     analysisResult := None;
     errorMessage := None |}.

Definition setVideoFile (v : option File) (st : State) : State :=
  {| videoFile := v; jobDescription := jobDescription st; status := status st;
     analysisResult := analysisResult st; errorMessage := errorMessage st |}.

Definition setJobDescription (v : string) (st : State) : State :=
  {| videoFile := videoFile st; jobDescription := v; status := status st;
     analysisResult := analysisResult st; errorMessage := errorMessage st |}.

Definition setStatus (v : UploadStatus) (st : State) : State :=
  {| videoFile := videoFile st; jobDescription := jobDescription st;
     status := v;
     analysisResult := analysisResult st; errorMessage := errorMessage st |}.

Definition setAnalysisResult (v : option InterviewAnalysis) (st : State)
  : State :=
  {| videoFile := videoFile st; jobDescription := jobDescription st;
     status := status st;
     analysisResult := v; errorMessage := errorMessage st |}.

Definition setErrorMessage (v : option string) (st : State) : State :=
  {| videoFile := videoFile st; jobDescription := jobDescription st;
     status := status st;
     analysisResult := analysisResult st; errorMessage := v |}.

(** [handleAnalyze] up to its [await]: [None] is the early return; otherwise
    the new state and the call that is now outstanding, with the file and the
    description the handler closed over. *)
Definition handleAnalyze_submit (st : State) : option (State * (File * string)) :=
  match videoFile st with
  | None => None
  | Some file =>
      let st := setStatus UPLOADING st in
      let st := setErrorMessage None st in
      Some (st, (file, jobDescription st))
  end.

(** [handleAnalyze] after its [await]: the [try] branch on a result, the
    [catch] branch on a thrown value. *)
Definition handleAnalyze_settle (outcome : Outcome InterviewAnalysis)
    (st : State) : State :=
  match outcome with
  | Return result =>
      let st := setAnalysisResult (Some result) st in
      setStatus READY st
  | Throw error =>
      let st :=
        setErrorMessage
          (Some (Js.or_else (message_of error)
                   "Something went wrong during analysis.")) st in
      setStatus ERROR st
  end.

(** [handleReset] *)
Definition handleReset (st : State) : State :=
  let st := setVideoFile None st in
  let st := setJobDescription EmptyString st in
  let st := setAnalysisResult None st in
  let st := setStatus IDLE st in
  setErrorMessage None st.

(** The component together with the calls it is still waiting for. *)
Record Sys := mkSys {
  ui : State;
  inflight : list (Outcome InterviewAnalysis)
}.

Definition start : Sys := {| ui := initial; inflight := [] |}.

(** One transition of the component: the user picks a file, edits the
    description, submits, or resets, or an outstanding call settles (as a
    success or as a failure).  Nothing here stops a reset or a second
    submission while a call is outstanding. *)
Inductive step : Sys -> Sys -> Prop :=
| step_select (s : Sys) (file : option File) :
    step s {| ui := setVideoFile file (ui s); inflight := inflight s |}
| step_describe (s : Sys) (text : string) :
    step s {| ui := setJobDescription text (ui s); inflight := inflight s |}
| step_submit (s : Sys) (env : Env) (st' : State) (file : File)
      (description : string) :
    handleAnalyze_submit (ui s) = Some (st', (file, description)) ->
    step s {| ui := st';
              inflight :=
                fst (GeminiService.analyzeInterview env file description)
                  :: inflight s |}
| step_settle (s : Sys) (before after : list (Outcome InterviewAnalysis))
      (outcome : Outcome InterviewAnalysis) :
    inflight s = (before ++ outcome :: after)%list ->
    step s {| ui := handleAnalyze_settle outcome (ui s);
              inflight := (before ++ after)%list |}
| step_reset (s : Sys) :
    step s {| ui := handleReset (ui s); inflight := inflight s |}.

Inductive reachable : Sys -> Prop :=
| reachable_start : reachable start
| reachable_step (s s' : Sys) : reachable s -> step s s' -> reachable s'.

(** The loading indication and the error indication, as the component
    renders them. *)
Definition shows_loading (st : State) : bool :=
  match status st with UPLOADING => true | _ => false end.

Definition shows_error (st : State) : bool :=
  Js.truthy (errorMessage st).

(** What the claim about the two indications asks of a state. *)
Definition consistent (st : State) : Prop :=
  (status st = UPLOADING -> errorMessage st = None) /\
  (status st = ERROR ->
   exists message, errorMessage st = Some message /\ message <> EmptyString).

End App.

(** A run of the component: pick a file, submit while the service is
    unreachable, and see the call fail. *)
Module Scenario.
Import App.

Definition picked : Sys :=
  {| ui := setVideoFile (Some Samples.clip) initial; inflight := [] |}.

Definition waiting : Sys :=
  {| ui := setErrorMessage None (setStatus Types.UPLOADING (ui picked));
     inflight :=
       [fst (GeminiService.analyzeInterview Samples.offline Samples.clip
               EmptyString)] |}.

Definition failed : Sys :=
  {| ui := handleAnalyze_settle
             (Throw GeminiService.analysis_failed_error) (ui waiting);
     inflight := [] |}.

End Scenario.

(** ** components/VideoUploader.tsx: the event handlers *)

Module UploaderHandlers.
Import VideoUploader.

(** What a handler leaves behind: the component state, the value of the file
    input it touched ([None] while no input element is mounted), and the
    argument of [onFileSelect] when the handler called it. *)
Record Effect := mkEffect {
  state : State;
  input_value : option string;
  selected : option (option File)
}.

(** [handleFileChange]; [files] is [e.target.files] (empty for [null]) and
    [value] the value of [e.target]. *)
Definition handleFileChange (files : list File) (st : State) (value : string)
  : Effect :=
  match Js.index files 0 with
  | Some file =>
      let '(ok, st) := validateFile file st in
      if ok then
        {| state := st; input_value := Some value;
           selected := Some (Some file) |}
      else
        {| state := st; input_value := Some EmptyString; selected := None |}
  | None => {| state := st; input_value := Some value; selected := None |}
  end.

(** [handleDrop]; [files] is [e.dataTransfer.files], [input] the value of
    the file input, which the handler does not touch. *)
Definition handleDrop (files : list File) (st : State) (input : option string)
  : Effect :=
  let st := setDragActive false st in
  match Js.index files 0 with
  | Some file =>
      let '(ok, st) := validateFile file st in
      if ok then
        {| state := st; input_value := input; selected := Some (Some file) |}
      else
        {| state := st; input_value := input; selected := None |}
  | None => {| state := st; input_value := input; selected := None |}
  end.

Definition handleDragOver (st : State) : State := setDragActive true st.

Definition handleDragLeave (st : State) : State := setDragActive false st.

(** [clearFile]; [input] is [fileInputRef.current], [None] when the ref is
    empty. *)
Definition clearFile (st : State) (input : option string) : Effect :=
  {| state := setError None st;
     input_value :=
       match input with
       | Some _ => Some EmptyString
       | None => None
       end;
     selected := Some None |}.

(** The files that pass [validateFile]. *)
Definition accepted (file : File) : bool :=
  Js.startsWith (file_type file) "video/"
  && (file_size file <=? 52428800)%N.

(** The two texts the uploader can show. *)
Definition known_reason (e : option string) : Prop :=
  e = None \/ e = Some type_mismatch_reason \/ e = Some size_limit_reason.

End UploaderHandlers.

(** ** The page: [App] with its [VideoUploader], behind the controls as
    rendered *)

Module Page.
Import Types.

(** Truthiness of a parsed value, as the conditional rendering tests it. *)
Definition truthy_value (v : Json.value) : bool :=
  match v with
  | Json.Null => false
  | Json.Bool b => b
  | Json.Number m _ => negb (m =? 0)%Z
  | Json.Str s => negb (s =? EmptyString)
  | Json.Array _ => true
  | Json.Object _ => true
  end.

(** [analysisResult ? <AnalysisResult .../> : <form>] *)
Definition report_shown (st : App.State) : bool :=
  match App.analysisResult st with
  | Some v => truthy_value v
  | None => false
  end.

(** [disabled={!videoFile || status === UploadStatus.UPLOADING}] *)
Definition analyze_disabled (st : App.State) : bool :=
  match App.videoFile st, App.status st with
  | None, _ => true
  | Some _, UPLOADING => true
  | Some _, _ => false
  end.

(** [if (selectedFile)]: the uploader shows the preview with the clear
    button, otherwise the drop zone with the file input. *)
Definition preview_shown (st : App.State) : bool :=
  match App.videoFile st with
  | Some _ => true
  | None => false
  end.

(** [onFileSelect={setVideoFile}] *)
Definition onFileSelect (call : option (option File)) (st : App.State)
  : App.State :=
  match call with
  | Some v => App.setVideoFile v st
  | None => st
  end.

Definition fresh_uploader : VideoUploader.State :=
  VideoUploader.mkState None false.

Record State := mkPage {
  app : App.State;
  uploader : VideoUploader.State;
  outstanding : list (Outcome InterviewAnalysis);
  submitted : list File           (* every file handed to [analyzeInterview] *)
}.

Definition start : State :=
  {| app := App.initial; uploader := fresh_uploader;
     outstanding := []; submitted := [] |}.

(** One event on the page.  A control can be used only while it is rendered
    and enabled: the form while no report is shown, the drop zone and the
    file input while no file is selected, the clear button while one is, the
    analyze button unless disabled, and the report's reset while the report is
    shown.  The uploader is mounted afresh when the form comes back. *)
Inductive step : State -> State -> Prop :=
| step_change (p : State) (files : list File) (value : string) :
    report_shown (app p) = false ->
    preview_shown (app p) = false ->
    let eff := UploaderHandlers.handleFileChange files (uploader p) value in
    step p {| app := onFileSelect (UploaderHandlers.selected eff) (app p);
              uploader := UploaderHandlers.state eff;
              outstanding := outstanding p; submitted := submitted p |}
| step_drop (p : State) (files : list File) (input : option string) :
    report_shown (app p) = false ->
    preview_shown (app p) = false ->
    let eff := UploaderHandlers.handleDrop files (uploader p) input in
    step p {| app := onFileSelect (UploaderHandlers.selected eff) (app p);
              uploader := UploaderHandlers.state eff;
              outstanding := outstanding p; submitted := submitted p |}
| step_drag (p : State) (over : bool) :
    report_shown (app p) = false ->
    preview_shown (app p) = false ->
    step p {| app := app p;
              uploader :=
                if over then UploaderHandlers.handleDragOver (uploader p)
                else UploaderHandlers.handleDragLeave (uploader p);
              outstanding := outstanding p; submitted := submitted p |}
| step_clear (p : State) (input : option string) :
    report_shown (app p) = false ->
    preview_shown (app p) = true ->
    let eff := UploaderHandlers.clearFile (uploader p) input in
    step p {| app := onFileSelect (UploaderHandlers.selected eff) (app p);
              uploader := UploaderHandlers.state eff;
              outstanding := outstanding p; submitted := submitted p |}
| step_describe (p : State) (text : string) :
    report_shown (app p) = false ->
    step p {| app := App.setJobDescription text (app p);
              uploader := uploader p;
              outstanding := outstanding p; submitted := submitted p |}
| step_analyze (p : State) (env : Env) (st' : App.State) (file : File)
      (description : string) :
    report_shown (app p) = false ->
    analyze_disabled (app p) = false ->
    App.handleAnalyze_submit (app p) = Some (st', (file, description)) ->
    step p {| app := st';
              uploader := uploader p;
              outstanding :=
                fst (GeminiService.analyzeInterview env file description)
                  :: outstanding p;
              submitted := file :: submitted p |}
| step_settle (p : State) (before after : list (Outcome InterviewAnalysis))
      (outcome : Outcome InterviewAnalysis) :
    outstanding p = (before ++ outcome :: after)%list ->
    step p {| app := App.handleAnalyze_settle outcome (app p);
              uploader := uploader p;
              outstanding := (before ++ after)%list;
              submitted := submitted p |}
| step_reset (p : State) :
    report_shown (app p) = true ->
    step p {| app := App.handleReset (app p);
              uploader := fresh_uploader;
              outstanding := outstanding p; submitted := submitted p |}.

Inductive reachable : State -> Prop :=
| reachable_start : reachable start
| reachable_step (p p' : State) : reachable p -> step p p' -> reachable p'.

(** The three texts [App] can show after a failed analysis. *)
Definition known_message (m : option string) : Prop :=
  m = None
  \/ m = Some "API Key is missing. Please set it in the environment."
  \/ m = Some "Failed to analyze the video. The file might be too large or the format unsupported."
  \/ m = Some "Something went wrong during analysis.".

(** The values [analyzeInterview] throws. *)
Definition known_throw (e : Thrown) : Prop :=
  e = GeminiService.missing_key_error
  \/ e = ProgressEvent
  \/ e = GeminiService.analysis_failed_error.

Definition known_outcome (o : Outcome InterviewAnalysis) : Prop :=
  match o with
  | Return _ => True
  | Throw e => known_throw e
  end.

(** Calls and status go together: nothing outstanding and not UPLOADING, or
    exactly one call outstanding, UPLOADING, and no report on screen. *)
Definition in_step (p : State) : Prop :=
  (outstanding p = [] /\ App.status (app p) <> UPLOADING)
  \/ ((exists o, outstanding p = [o]) /\ App.status (app p) = UPLOADING
      /\ report_shown (app p) = false).

(** What each status says about the other slots. *)
Definition slots_agree (st : App.State) : Prop :=
  match App.status st with
  | IDLE => App.analysisResult st = None /\ App.errorMessage st = None
  | UPLOADING => App.errorMessage st = None /\ report_shown st = false
  | READY =>
      (exists r, App.analysisResult st = Some r) /\ App.errorMessage st = None
  | ERROR =>
      (exists m, App.errorMessage st = Some m) /\ report_shown st = false
  end.

(** Everything the page keeps true from one event to the next. *)
Definition invariant (p : State) : Prop :=
  in_step p
  /\ slots_agree (app p)
  /\ Forall known_outcome (outstanding p)
  /\ Forall (fun f => UploaderHandlers.accepted f = true) (submitted p)
  /\ (forall f, App.videoFile (app p) = Some f ->
                UploaderHandlers.accepted f = true)
  /\ known_message (App.errorMessage (app p))
  /\ UploaderHandlers.known_reason (VideoUploader.error (uploader p)).

(** A picked file, a submission that is answered with the sample report,
    and the page after the answer. *)
Definition picked : State :=
  {| app := App.setVideoFile (Some Samples.clip) App.initial;
     uploader := fresh_uploader; outstanding := []; submitted := [] |}.

Definition waiting : State :=
  {| app := App.setErrorMessage None (App.setStatus UPLOADING (app picked));
     uploader := fresh_uploader;
     outstanding :=
       [fst (GeminiService.analyzeInterview
               (Samples.answering Samples.solid_response) Samples.clip
               EmptyString)];
     submitted := [Samples.clip] |}.

End Page.

(** * Properties *)

(** ** The file validator *)

Section Validator.
Import VideoUploader.

Lemma size_limit_reason_text :
  size_limit_reason = "File size exceeds the 50MB limit for this demo.".
Proof. reflexivity. Qed.

Lemma reasons_differ : type_mismatch_reason <> size_limit_reason.
Proof. discriminate. Qed.

Lemma ceiling_value : (MAX_SIZE_MB * 1024 * 1024 = 52428800)%N.
Proof. reflexivity. Qed.

(** The three ways [validateFile] can go, each with the state it leaves. *)
Lemma validateFile_cases (file : File) (st : State) :
  validateFile file st =
    if negb (Js.startsWith (file_type file) "video/") then
      (false, {| error := Some type_mismatch_reason;
                 dragActive := dragActive st |})
    else if (52428800 <? file_size file)%N then
      (false, {| error := Some size_limit_reason;
                 dragActive := dragActive st |})
    else (true, {| error := None; dragActive := dragActive st |}).
Proof.
  unfold validateFile. rewrite ceiling_value.
  destruct (negb _); [reflexivity|].
  destruct (_ <? _)%N; reflexivity.
Qed.

(** C1, as stated, fails: a type that begins with [video] but not with
    [video/] is accepted by the rule list of the specification and rejected
    by the code. *)
Lemma validateFile_spec_differs :
  let file := mkFile "clip" "video" 0 [] in
  let st := mkState None false in
  validateFile_spec file = Accept /\
  verdict (validateFile file st) = Reject type_mismatch_reason /\
  verdict (validateFile file st) <> validateFile_spec file.
Proof. cbv zeta. repeat split; try reflexivity. discriminate. Qed.

(** C1 (amended): the validator applies its rules in order, the type test
    being "begins with [video/]": a file whose type does not begin with
    [video/] is rejected with the type-mismatch reason; otherwise a file
    larger than 50 * 1024 * 1024 bytes is rejected with the size-limit
    reason; otherwise the file is accepted. *)
Theorem validateFile_rules (file : File) (st : State) :
  verdict (validateFile file st) =
    if negb (Js.startsWith (file_type file) "video/") then
      Reject type_mismatch_reason
    else if (50 * 1024 * 1024 <? file_size file)%N then
      Reject size_limit_reason
    else Accept.
Proof.
  rewrite validateFile_cases. change (50 * 1024 * 1024)%N with 52428800%N.
  destruct (negb _); [reflexivity|].
  destruct (_ <? _)%N; reflexivity.
Qed.

(** C2, as stated, fails: an oversized file that is not a video is rejected
    for its type, not for its size. *)
Lemma oversize_image_rejected_for_type :
  let file := mkFile "photo.png" "image/png" (60 * 1024 * 1024) [] in
  let st := mkState None false in
  verdict (validateFile file st) = Reject type_mismatch_reason /\
  ~ oversize_rejected_for_size file st.
Proof.
  cbv zeta. split; [reflexivity|].
  unfold oversize_rejected_for_size. intros H.
  assert (L : (50 * 1024 * 1024 < 60 * 1024 * 1024)%N) by reflexivity.
  specialize (H L). vm_compute in H. discriminate H.
Qed.

(** C2 (amended): a file whose declared size exceeds the ceiling is always
    rejected; the reason is the size limit when its type begins with
    [video/], and the type mismatch when it does not. *)
Theorem oversize_rejected (file : File) (st : State) :
  (50 * 1024 * 1024 < file_size file)%N ->
  verdict (validateFile file st) =
    if Js.startsWith (file_type file) "video/" then Reject size_limit_reason
    else Reject type_mismatch_reason.
Proof.
  intros H. rewrite validateFile_cases.
  change (50 * 1024 * 1024)%N with 52428800%N in H.
  apply N.ltb_lt in H. rewrite H.
  destruct (Js.startsWith _ _); reflexivity.
Qed.

Lemma oversize_rejected_witness :
  let file := mkFile "talk.mp4" "video/mp4" (60 * 1024 * 1024) [] in
  (50 * 1024 * 1024 < file_size file)%N /\
  verdict (validateFile file (mkState None true)) = Reject size_limit_reason.
Proof.
  cbv zeta. split; [reflexivity|].
  apply (oversize_rejected
           (mkFile "talk.mp4" "video/mp4" (60 * 1024 * 1024) [])
           (mkState None true)).
  reflexivity.
Defined.

(** C9, as stated, fails: validating a file that is rejected writes the
    reason into the component's error slot. *)
Lemma validateFile_writes_error :
  let file := mkFile "notes.txt" "text/plain" 12 [] in
  let st := mkState None false in
  error (snd (validateFile file st)) = Some type_mismatch_reason /\
  ~ leaves_state_unchanged file st.
Proof.
  cbv zeta. split; [reflexivity|].
  unfold leaves_state_unchanged. vm_compute. discriminate.
Qed.

(** C9 (amended): the validator's answer depends on the file alone, and of
    the component state it writes the error slot only: the slot is cleared
    when the file is accepted and holds the reason when it is rejected; the
    drag indication is left as it was. *)
Theorem validateFile_effect (file : File) (st st' : State) :
  fst (validateFile file st) = fst (validateFile file st') /\
  dragActive (snd (validateFile file st)) = dragActive st /\
  error (snd (validateFile file st)) =
    match verdict (validateFile file st) with
    | Accept => None
    | Reject reason => Some reason
    end.
Proof.
  rewrite !validateFile_cases.
  destruct (negb _); [repeat split|].
  destruct (_ <? _)%N; repeat split.
Qed.

End Validator.

(** ** Base64 and data URLs *)

Section Base64Facts.
Import Base64.

Ltac each_sextet s :=
  destruct s as [[[[[b5 b4] b3] b2] b1] b0];
  destruct b5, b4, b3, b2, b1, b0.

Lemma dec_enc_char (s : sextet) : dec_char (enc_char s) = Some s.
Proof. each_sextet s; reflexivity. Qed.

Lemma enc_char_not_pad (s : sextet) : Ascii.eqb (enc_char s) pad = false.
Proof. each_sextet s; reflexivity. Qed.

Lemma enc_char_not_comma (s : sextet) : Ascii.eqb (enc_char s) "," = false.
Proof. each_sextet s; reflexivity. Qed.

Lemma bytes_of_sextets_sextets (a b c : byte) :
  let '(s1, s2, s3, s4) := sextets a b c in
  bytes_of_sextets s1 s2 s3 s4 = (a, b, c).
Proof.
  unfold sextets.
  remember (Byte.to_bits a) as ta eqn:Ha.
  remember (Byte.to_bits b) as tb eqn:Hb.
  remember (Byte.to_bits c) as tc eqn:Hc.
  apply (f_equal Byte.of_bits) in Ha, Hb, Hc.
  rewrite Byte.of_bits_to_bits in Ha, Hb, Hc.
  destruct ta as (? & ? & ? & ? & ? & ? & ? & ?).
  destruct tb as (? & ? & ? & ? & ? & ? & ? & ?).
  destruct tc as (? & ? & ? & ? & ? & ? & ? & ?).
  subst a b c.
  reflexivity.
Qed.

(** A list is empty, has one or two elements, or starts with three. *)
Lemma list_ind3 {A} (P : list A -> Prop) :
  P [] -> (forall a, P [a]) -> (forall a b, P [a; b]) ->
  (forall a b c l, P l -> P (a :: b :: c :: l)) ->
  forall l, P l.
Proof.
  intros H0 H1 H2 H3.
  assert (H : forall l, P l /\ (forall a, P (a :: l)) /\ (forall a b, P (a :: b :: l))).
  { induction l as [|x l (IH0 & IH1 & IH2)].
    - repeat split; auto.
    - repeat split; auto. }
  intros l. apply H.
Qed.

Lemma sextets_fourth (a b : byte) : snd (sextets a b x00) = zero6.
Proof.
  unfold sextets.
  destruct (Byte.to_bits a) as (? & ? & ? & ? & ? & ? & ? & ?).
  destruct (Byte.to_bits b) as (? & ? & ? & ? & ? & ? & ? & ?).
  reflexivity.
Qed.

Lemma sextets_third (a : byte) : snd (fst (sextets a x00 x00)) = zero6.
Proof.
  unfold sextets.
  destruct (Byte.to_bits a) as (? & ? & ? & ? & ? & ? & ? & ?).
  reflexivity.
Qed.

Lemma decode_encode (bs : list byte) : decode (encode bs) = Some bs.
Proof.
  induction bs as [|a|a b|a b c rest IH] using list_ind3.
  - reflexivity.
  - cbn [encode].
    pose proof (bytes_of_sextets_sextets a x00 x00) as E.
    pose proof (sextets_fourth a x00) as T4.
    pose proof (sextets_third a) as T3.
    destruct (sextets a x00 x00) as [[[s1 s2] s3] s4].
    cbn [fst snd] in T3, T4. subst s3 s4.
    cbn [decode quad].
    rewrite !dec_enc_char, !Ascii.eqb_refl, E. reflexivity.
  - cbn [encode].
    pose proof (bytes_of_sextets_sextets a b x00) as E.
    pose proof (sextets_fourth a b) as T4.
    destruct (sextets a b x00) as [[[s1 s2] s3] s4].
    cbn [snd] in T4. subst s4.
    cbn [decode quad].
    rewrite !dec_enc_char, Ascii.eqb_refl, enc_char_not_pad, E. reflexivity.
  - cbn [encode].
    pose proof (bytes_of_sextets_sextets a b c) as E.
    destruct (sextets a b c) as [[[s1 s2] s3] s4].
    cbn [decode quad].
    rewrite !dec_enc_char, enc_char_not_pad, IH, E. reflexivity.
Qed.

Lemma encode_no_comma (bs : list byte) : Js.occurs "," (encode bs) = false.
Proof.
  induction bs as [|a|a b|a b c rest IH] using list_ind3; cbn [encode].
  - reflexivity.
  - destruct (sextets a x00 x00) as [[[s1 s2] s3] s4].
    cbn [quad Js.occurs]. rewrite !enc_char_not_comma. reflexivity.
  - destruct (sextets a b x00) as [[[s1 s2] s3] s4].
    cbn [quad Js.occurs]. rewrite !enc_char_not_comma. reflexivity.
  - destruct (sextets a b c) as [[[s1 s2] s3] s4].
    cbn [quad Js.occurs]. rewrite !enc_char_not_comma, IH. reflexivity.
Qed.

End Base64Facts.

Section Encoder.
Import GenAI GeminiService.

Lemma append_assoc (a b c : string) : (a ++ b) ++ c = a ++ (b ++ c).
Proof. induction a as [|d a IH]; cbn; [reflexivity|]. now rewrite IH. Qed.

Lemma occurs_app (c : ascii) (a b : string) :
  Js.occurs c (a ++ b) = Js.occurs c a || Js.occurs c b.
Proof.
  induction a as [|d a IH]; cbn; [reflexivity|].
  rewrite IH. apply orb_assoc.
Qed.

Lemma split_no_separator (sep : ascii) (a : string) :
  Js.occurs sep a = false -> Js.split sep a = [a].
Proof.
  induction a as [|d a IH]; cbn; [reflexivity|].
  intros H. apply orb_false_elim in H as [Hd Ha].
  rewrite Hd, (IH Ha). reflexivity.
Qed.

Lemma split_at_separator (sep : ascii) (a b : string) :
  Js.occurs sep a = false ->
  Js.split sep (a ++ String sep b) = a :: Js.split sep b.
Proof.
  induction a as [|d a IH]; cbn.
  - intros _. rewrite Ascii.eqb_refl. reflexivity.
  - intros H. apply orb_false_elim in H as [Hd Ha].
    rewrite Hd, (IH Ha). reflexivity.
Qed.

Lemma strip_prefix_app (p s : string) :
  FileReader.strip_prefix p (p ++ s) = Some s.
Proof.
  induction p as [|c p IH]; cbn; [reflexivity|].
  rewrite Ascii.eqb_refl. exact IH.
Qed.

(** A data URL is its header without the final comma, that comma, and the
    payload. *)
Lemma dataURL_shape (file : File) :
  FileReader.dataURL file =
    ("data:" ++ file_type file ++ ";base64")
      ++ String "," (Base64.encode (file_bytes file)).
Proof.
  unfold FileReader.dataURL. rewrite !append_assoc. reflexivity.
Qed.

(** For a type without a comma the encoder returns exactly the base64
    payload. *)
Lemma encoded_payload (file : File) :
  Js.occurs "," (file_type file) = false ->
  encoded file =
    {| mimeType := file_type file;
       data := Some (Base64.encode (file_bytes file)) |}.
Proof.
  intros H. unfold encoded. f_equal.
  rewrite dataURL_shape, split_at_separator.
  - rewrite split_no_separator by apply encode_no_comma. reflexivity.
  - rewrite !occurs_app, H. reflexivity.
Qed.

Lemma fileToGenerativePart_readable (env : Env) (file : File) :
  readable env file = true ->
  fileToGenerativePart env file = (Return (encoded file), [FileRead file]).
Proof.
  intros H. unfold fileToGenerativePart, bind, emit, ret.
  rewrite H. reflexivity.
Qed.

Lemma fileToGenerativePart_unreadable (env : Env) (file : File) :
  readable env file = false ->
  fileToGenerativePart env file = (Throw ProgressEvent, [FileRead file]).
Proof.
  intros H. unfold fileToGenerativePart, bind, emit, throw.
  rewrite H. reflexivity.
Qed.

(** X1: round trip, for a file that was read and whose type has no comma:
    the encoder's output is the bare payload, and putting a data-URL header
    back in front of it and decoding gives the file's bytes. *)
Lemma fileToGenerativePart_roundtrip (env : Env) (file : File) :
  readable env file = true ->
  Js.occurs "," (file_type file) = false ->
  exists payload,
    fst (fileToGenerativePart env file)
      = Return {| mimeType := file_type file; data := Some payload |} /\
    FileReader.dataURL file = FileReader.header (file_type file) ++ payload /\
    forall mime,
      FileReader.decode_dataURL mime (FileReader.header mime ++ payload)
        = Some (file_bytes file).
Proof.
  intros Hr Hc. exists (Base64.encode (file_bytes file)).
  rewrite (fileToGenerativePart_readable _ _ Hr), (encoded_payload _ Hc).
  split; [reflexivity|]. split.
  - unfold FileReader.dataURL, FileReader.header.
    rewrite !append_assoc. reflexivity.
  - intros mime. unfold FileReader.decode_dataURL.
    rewrite strip_prefix_app. apply decode_encode.
Qed.

(** C3 fails on the code for an accepted file whose type contains a comma:
    the second piece of the split is a piece of the header, not the payload,
    and it does not decode to the file's bytes. *)
Theorem fileToGenerativePart_comma_in_type :
  let file := Samples.recording in
  let env := Samples.answering "{}" in
  fst (VideoUploader.validateFile file (VideoUploader.mkState None false))
    = true /\
  FileReader.dataURL file = "data:video/webm;codecs=vp8,opus;base64,TWFu" /\
  fst (fileToGenerativePart env file)
    = Return {| mimeType := "video/webm;codecs=vp8,opus";
                data := Some "opus;base64" |} /\
  FileReader.decode_dataURL "video/webm"
    (FileReader.header "video/webm" ++ "opus;base64")
    <> Some (file_bytes file).
Proof.
  cbv zeta. repeat split; try reflexivity.
  vm_compute. discriminate.
Qed.

End Encoder.

(** ** The remote analysis client *)

Section Client.
Import GenAI GeminiService.

(** How a call goes once the credential is there and the file was read: one
    request is sent, and everything that goes wrong afterwards is logged and
    replaced by the generic error. *)
Lemma analyzeInterview_configured (env : Env) (file : File) (jd : string) :
  Js.truthy (API_KEY env) = true ->
  readable env file = true ->
  analyzeInterview env file jd =
    let request := sent_request file jd in
    let failed cause :=
      (Throw analysis_failed_error,
       [FileRead file; NetworkCall request; ConsoleError "Gemini Analysis Error:" cause]) in
    match generateContent env request with
    | Throw e => failed e
    | Return r =>
        match response_text r with
        | None => failed no_text_error
        | Some text =>
            if text =? EmptyString then failed no_text_error
            else match Json.parse text with
                 | Some v => (Return v, [FileRead file; NetworkCall request])
                 | None => failed syntax_error
                 end
        end
    end.
Proof.
  intros Hk Hr. unfold analyzeInterview. rewrite Hk. cbn [negb].
  rewrite (fileToGenerativePart_readable _ _ Hr).
  unfold call_generateContent, sent_request.
  cbn [bind emit app].
  destruct (generateContent env _) as [r|e]; [|reflexivity].
  destruct r as [[text|]]; [|reflexivity].
  cbn [bind response_text Js.truthy].
  destruct (text =? EmptyString); [reflexivity|].
  cbn [negb]. destruct (Json.parse text); reflexivity.
Qed.


Lemma parse_empty : Json.parse EmptyString = None.
Proof. reflexivity. Qed.

(** C4: without a configured credential (none, or the empty string) the call
    throws the configuration error, which is not the generic one, and leaves
    no event behind: no network call, and no file read either. *)
Theorem analyzeInterview_missing_key (env : Env) (file : File) (jd : string) :
  Js.truthy (API_KEY env) = false ->
  analyzeInterview env file jd = (Throw missing_key_error, []) /\
  network_calls (snd (analyzeInterview env file jd)) = 0 /\
  missing_key_error <> analysis_failed_error.
Proof.
  intros H. unfold analyzeInterview. rewrite H. cbn.
  repeat split. discriminate.
Qed.

Lemma analyzeInterview_missing_key_witness :
  Js.truthy (API_KEY Samples.unconfigured) = false /\
  fst (analyzeInterview Samples.unconfigured Samples.clip "Backend role")
    = Throw missing_key_error /\
  network_calls
    (snd (analyzeInterview Samples.unconfigured Samples.clip "Backend role"))
    = 0.
Proof.
  split; [reflexivity|].
  destruct (analyzeInterview_missing_key
              Samples.unconfigured Samples.clip "Backend role" eq_refl)
    as (E & N & _).
  split; [now rewrite E | exact N].
Defined.

(** C5: once the request is on its way, a rejected call, an answer without
    text and a text that is not JSON all end in the same generic error, the
    cause going to the console only; and whatever the surroundings, a value
    the call returns is the parse of the whole response text. *)
Theorem analyzeInterview_remote_failure (env : Env) (file : File) (jd : string) :
  Js.truthy (API_KEY env) = true ->
  readable env file = true ->
  (forall cause,
      RemoteFailure env (sent_request file jd) cause ->
      analyzeInterview env file jd =
        (Throw analysis_failed_error,
         [FileRead file; NetworkCall (sent_request file jd);
          ConsoleError "Gemini Analysis Error:" cause])) /\
  (forall report,
      fst (analyzeInterview env file jd) = Return report ->
      exists r text,
        generateContent env (sent_request file jd) = Return r /\
        response_text r = Some text /\
        Json.parse text = Some report).
Proof.
  intros Hk Hr. rewrite (analyzeInterview_configured _ _ _ Hk Hr). cbv zeta.
  split.
  - intros cause F. destruct F as [e E | r E T | r text E T Hne P].
    + rewrite E. reflexivity.
    + rewrite E. destruct (response_text r) as [text|]; [|reflexivity].
      cbn in T. apply negb_false_iff in T. rewrite T. reflexivity.
    + rewrite E, T. apply String.eqb_neq in Hne. rewrite Hne, P. reflexivity.
  - intros report.
    destruct (generateContent env _) as [r|e]; [|discriminate].
    destruct (response_text r) as [text|] eqn:T; [|discriminate].
    destruct (text =? EmptyString); [discriminate|].
    destruct (Json.parse text) as [v|] eqn:P; [|discriminate].
    cbn. intros [= <-]. exists r, text. auto.
Qed.

Lemma analyzeInterview_remote_failure_witness :
  fst (analyzeInterview Samples.offline Samples.clip EmptyString)
    = Throw analysis_failed_error /\
  fst (analyzeInterview (Samples.answering "{not json") Samples.clip EmptyString)
    = Throw analysis_failed_error /\
  fst (analyzeInterview (Samples.answering EmptyString) Samples.clip EmptyString)
    = Throw analysis_failed_error.
Proof.
  split; [|split].
  - destruct (analyzeInterview_remote_failure
                Samples.offline Samples.clip EmptyString eq_refl eq_refl)
      as [F _].
    erewrite F; [reflexivity|]. apply network_failure. reflexivity.
  - destruct (analyzeInterview_remote_failure
                (Samples.answering "{not json") Samples.clip EmptyString
                eq_refl eq_refl) as [F _].
    erewrite F; [reflexivity|].
    eapply parse_failure; [reflexivity | reflexivity | discriminate | reflexivity].
  - destruct (analyzeInterview_remote_failure
                (Samples.answering EmptyString) Samples.clip EmptyString
                eq_refl eq_refl) as [F _].
    erewrite F; [reflexivity|].
    eapply absent_body; reflexivity.
Defined.

(** C6: when the response text is well-formed JSON that matches the schema,
    the call returns the parsed value itself, so every field of the report
    is the parsed field. *)
Theorem analyzeInterview_returns_parsed (env : Env) (file : File) (jd : string)
    (r : GenerateContentResponse) (text : string) (v : Json.value) :
  Js.truthy (API_KEY env) = true ->
  readable env file = true ->
  generateContent env (sent_request file jd) = Return r ->
  response_text r = Some text ->
  Json.parse text = Some v ->
  conforms analysisSchema v = true ->
  exists report,
    fst (analyzeInterview env file jd) = Return report /\
    report = v /\
    Types.overallScore report = Json.get "overallScore" v /\
    Types.summary report = Json.get "summary" v /\
    Types.strengths report = Json.get "strengths" v /\
    Types.weaknesses report = Json.get "weaknesses" v /\
    Types.actionableTips report = Json.get "actionableTips" v /\
    Types.categories report = Json.get "categories" v.
Proof.
  intros Hk Hr E T P _. exists v.
  rewrite (analyzeInterview_configured _ _ _ Hk Hr). cbv zeta.
  rewrite E, T.
  destruct (String.eqb_spec text EmptyString) as [->|_].
  - rewrite parse_empty in P. discriminate.
  - rewrite P. repeat split.
Qed.

(** The example of the specification: the report has overall score 82 and
    exactly one category, named "Verbal Communication". *)
Lemma analyzeInterview_solid_example :
  exists report category,
    fst (analyzeInterview (Samples.answering Samples.solid_response)
           Samples.clip "Frontend role") = Return report /\
    Types.overallScore report = Some (Json.Number 82 0) /\
    Types.categories report = Some (Json.Array [category]) /\
    Types.name category = Some (Json.Str "Verbal Communication").
Proof.
  destruct (analyzeInterview_returns_parsed
              (Samples.answering Samples.solid_response)
              Samples.clip "Frontend role"
              {| response_text := Some Samples.solid_response |}
              Samples.solid_response
              (match Json.parse Samples.solid_response with
               | Some v => v
               | None => Json.Null
               end)
              eq_refl eq_refl eq_refl eq_refl eq_refl eq_refl)
    as (report & E & -> & _).
  exists (match Json.parse Samples.solid_response with
          | Some v => v
          | None => Json.Null
          end).
  eexists. split; [exact E|]. repeat split.
Defined.

(** C7: the description embedded in the instruction is the default exactly
    when the context string is empty, and the context string itself
    otherwise; that instruction is the text part of the request. *)
Theorem prompt_description (file : File) (jd : string) :
  (jd = EmptyString ->
   prompt jd = prompt_head ++ default_description ++ prompt_tail) /\
  (jd <> EmptyString -> prompt jd = prompt_head ++ jd ++ prompt_tail) /\
  contents (sent_request file jd)
    = [InlineDataPart (encoded file); TextPart (prompt jd)].
Proof.
  unfold prompt. cbn [Js.or_else]. repeat split.
  - intros ->. reflexivity.
  - intros H. apply String.eqb_neq in H. rewrite H. reflexivity.
Qed.

Lemma prompt_description_witness :
  prompt EmptyString
    = prompt_head ++ "General Software Engineering Role" ++ prompt_tail /\
  prompt "Senior React Developer"
    = prompt_head ++ "Senior React Developer" ++ prompt_tail /\
  prompt " " = prompt_head ++ " " ++ prompt_tail.
Proof.
  split; [|split].
  - apply (prompt_description Samples.clip EmptyString). reflexivity.
  - apply (prompt_description Samples.clip "Senior React Developer").
    discriminate.
  - apply (prompt_description Samples.clip " "). discriminate.
Defined.

(** C8: nothing checks the shape of the report after parsing: a response
    with an overall score of 150, one with a status outside the enumeration
    and one without any category are each valid JSON, break the report
    invariants, and are returned as the report without an error. *)
Theorem analyzeInterview_does_not_validate (file : File) (jd : string) :
  (exists report,
      fst (analyzeInterview (Samples.answering Samples.overscored_response)
             file jd) = Return report /\
      Types.overallScore report = Some (Json.Number 150 0) /\
      Types.report_invariants report = false) /\
  (exists report category,
      fst (analyzeInterview (Samples.answering Samples.unlisted_status_response)
             file jd) = Return report /\
      Types.categories report = Some (Json.Array [category]) /\
      Types.status category = Some (Json.Str "superb") /\
      Types.report_invariants report = false) /\
  (exists report,
      fst (analyzeInterview (Samples.answering Samples.no_category_response)
             file jd) = Return report /\
      Types.categories report = Some (Json.Array []) /\
      Types.report_invariants report = false).
Proof.
  split; [|split].
  - eexists.
    rewrite (analyzeInterview_configured
               (Samples.answering Samples.overscored_response) file jd
               eq_refl eq_refl).
    repeat split.
  - do 2 eexists.
    rewrite (analyzeInterview_configured
               (Samples.answering Samples.unlisted_status_response) file jd
               eq_refl eq_refl).
    repeat split.
  - eexists.
    rewrite (analyzeInterview_configured
               (Samples.answering Samples.no_category_response) file jd
               eq_refl eq_refl).
    repeat split.
Qed.

End Client.

(** ** The component's state machine *)

Section Component.
Import Types App.

Lemma or_else_nonempty (a : option string) (b : string) :
  b <> EmptyString -> Js.or_else a b <> EmptyString.
Proof.
  intros Hb. destruct a as [s|]; cbn; [|exact Hb].
  destruct (String.eqb_spec s EmptyString); assumption.
Qed.

Lemma consistent_initial : consistent initial.
Proof. split; discriminate. Qed.

Lemma consistent_submit (st st' : State) (call : File * string) :
  handleAnalyze_submit st = Some (st', call) -> consistent st'.
Proof.
  unfold handleAnalyze_submit. destruct (videoFile st); [|discriminate].
  intros [= <- _]. split; [reflexivity | discriminate].
Qed.

Lemma consistent_settle (outcome : Outcome InterviewAnalysis) (st : State) :
  consistent (handleAnalyze_settle outcome st).
Proof.
  destruct outcome as [result|error]; cbn.
  - split; discriminate.
  - split; [discriminate|]. intros _. eexists. split; [reflexivity|].
    apply or_else_nonempty. discriminate.
Qed.

Lemma consistent_reset (st : State) : consistent (handleReset st).
Proof. split; discriminate. Qed.

Lemma step_consistent (s s' : Sys) :
  step s s' -> consistent (ui s) -> consistent (ui s').
Proof.
  intros H C. destruct H; cbn [ui].
  - exact C.
  - exact C.
  - eapply consistent_submit; eassumption.
  - apply consistent_settle.
  - apply consistent_reset.
Qed.

(** C10: in every state the component can reach by picking a file, editing
    the description, submitting, resetting, and seeing outstanding calls
    succeed or fail (in any order), status UPLOADING comes with no error
    message and status ERROR with a non-empty one; so the loading indication
    and the error indication are never shown together. *)
Theorem reachable_consistent (s : Sys) :
  reachable s ->
  (status (ui s) = UPLOADING -> errorMessage (ui s) = None) /\
  (status (ui s) = ERROR -> exists message, errorMessage (ui s) = Some message) /\
  shows_loading (ui s) && shows_error (ui s) = false.
Proof.
  intros R.
  assert (C : consistent (ui s)).
  { induction R as [|s s' _ IH H].
    - exact consistent_initial.
    - exact (step_consistent _ _ H IH). }
  destruct C as [U E]. split; [exact U|]. split.
  - intros H. destruct (E H) as (m & Hm & _). exists m. exact Hm.
  - unfold shows_loading, shows_error.
    destruct (status (ui s)); try reflexivity.
    rewrite (U eq_refl). reflexivity.
Qed.

Lemma reachable_failed : reachable Scenario.failed.
Proof.
  apply (reachable_step Scenario.waiting).
  - apply (reachable_step Scenario.picked).
    + apply (reachable_step start).
      * exact reachable_start.
      * exact (step_select start (Some Samples.clip)).
    + exact (step_submit Scenario.picked Samples.offline _ Samples.clip
               EmptyString eq_refl).
  - exact (step_settle Scenario.waiting [] []
             (Throw GeminiService.analysis_failed_error) eq_refl).
Defined.

Lemma reachable_consistent_witness :
  reachable Scenario.failed /\
  status (ui Scenario.failed) = ERROR /\
  exists message, errorMessage (ui Scenario.failed) = Some message.
Proof.
  split; [exact reachable_failed|]. split; [reflexivity|].
  apply (reachable_consistent Scenario.failed reachable_failed).
  reflexivity.
Defined.

End Component.

(** ** More on the service *)

Section ServiceFacts.
Import GenAI GeminiService.

Lemma split_two_pieces (sep : ascii) (s : string) :
  Js.occurs sep s = true ->
  exists a b rest, Js.split sep s = a :: b :: rest.
Proof.
  induction s as [|c s IH]; cbn; [discriminate|].
  destruct (Ascii.eqb c sep) eqn:E; cbn.
  - intros _. destruct s as [|d s']; cbn.
    + exists EmptyString, EmptyString, []. reflexivity.
    + destruct (Ascii.eqb d sep).
      * eexists _, _, _. reflexivity.
      * destruct (Js.split sep s'); eexists _, _, _; reflexivity.
  - intros H. destruct (IH H) as (a & b & rest & ->).
    eexists _, _, _. reflexivity.
Qed.

Lemma dataURL_has_comma (file : File) :
  Js.occurs "," (FileReader.dataURL file) = true.
Proof.
  rewrite dataURL_shape, occurs_app. cbn [Js.occurs].
  rewrite Ascii.eqb_refl. cbn. apply orb_true_r.
Qed.

(** X2: whatever the file's type and content, a completed read makes the
    encoder resolve with the file's own type and with a string as data,
    never with an undefined one. *)
Theorem fileToGenerativePart_data_defined (env : Env) (file : File) :
  readable env file = true ->
  exists payload,
    fileToGenerativePart env file =
      (Return {| mimeType := file_type file; data := Some payload |},
       [FileRead file]).
Proof.
  intros Hr. rewrite (fileToGenerativePart_readable _ _ Hr). unfold encoded.
  destruct (split_two_pieces _ _ (dataURL_has_comma file))
    as (a & b & rest & ->).
  exists b. reflexivity.
Qed.

Lemma fileToGenerativePart_data_defined_witness :
  readable (Samples.answering "{}") Samples.recording = true /\
  exists payload,
    fileToGenerativePart (Samples.answering "{}") Samples.recording =
      (Return {| mimeType := "video/webm;codecs=vp8,opus";
                 data := Some payload |},
       [FileRead Samples.recording]).
Proof.
  split; [reflexivity|].
  exact (fileToGenerativePart_data_defined
           (Samples.answering "{}") Samples.recording eq_refl).
Defined.

Lemma fileToGenerativePart_roundtrip_witness :
  readable (Samples.answering "{}") Samples.clip = true /\
  Js.occurs "," (file_type Samples.clip) = false /\
  exists payload,
    fst (fileToGenerativePart (Samples.answering "{}") Samples.clip)
      = Return {| mimeType := "video/mp4"; data := Some payload |} /\
    FileReader.decode_dataURL "video/mp4"
      (FileReader.header "video/mp4" ++ payload)
      = Some (file_bytes Samples.clip).
Proof.
  split; [reflexivity|]. split; [reflexivity|].
  destruct (fileToGenerativePart_roundtrip
              (Samples.answering "{}") Samples.clip eq_refl eq_refl)
    as (payload & E & _ & D).
  exists payload. split; [exact E | exact (D "video/mp4")].
Defined.

(** The four ways a call can go, with the events each leaves. *)
Lemma analyzeInterview_cases (env : Env) (file : File) (jd : string) :
  (Js.truthy (API_KEY env) = false /\
   analyzeInterview env file jd = (Throw missing_key_error, []))
  \/ (Js.truthy (API_KEY env) = true /\ readable env file = false /\
      analyzeInterview env file jd = (Throw ProgressEvent, [FileRead file]))
  \/ (Js.truthy (API_KEY env) = true /\ readable env file = true /\
      exists report,
        analyzeInterview env file jd =
          (Return report,
           [FileRead file; NetworkCall (sent_request file jd)]))
  \/ (Js.truthy (API_KEY env) = true /\ readable env file = true /\
      exists cause,
        analyzeInterview env file jd =
          (Throw analysis_failed_error,
           [FileRead file; NetworkCall (sent_request file jd);
            ConsoleError "Gemini Analysis Error:" cause])).
Proof.
  destruct (Js.truthy (API_KEY env)) eqn:Hk.
  - right. destruct (readable env file) eqn:Hr.
    + right. rewrite (analyzeInterview_configured _ _ _ Hk Hr). cbv zeta.
      destruct (generateContent env _) as [r|e].
      * destruct (response_text r) as [text|].
        -- destruct (text =? EmptyString).
           ++ right. repeat split. eexists. reflexivity.
           ++ destruct (Json.parse text).
              ** left. repeat split. eexists. reflexivity.
              ** right. repeat split. eexists. reflexivity.
        -- right. repeat split. eexists. reflexivity.
      * right. repeat split. eexists. reflexivity.
    + left. repeat split. unfold analyzeInterview. rewrite Hk. cbn [negb].
      rewrite (fileToGenerativePart_unreadable _ _ Hr). reflexivity.
  - left. split; [reflexivity|]. unfold analyzeInterview. rewrite Hk.
    reflexivity.
Qed.


(** X5: [analyzeInterview] throws one of three values only (the missing-key
    error, the reader's error event, the generic error), and it writes to
    the console exactly when it throws the generic one. *)
Theorem analyzeInterview_throws (env : Env) (file : File) (jd : string) :
  (forall e, fst (analyzeInterview env file jd) = Throw e ->
             Page.known_throw e) /\
  ((exists label cause,
       In (ConsoleError label cause) (snd (analyzeInterview env file jd)))
   <-> fst (analyzeInterview env file jd) = Throw analysis_failed_error).
Proof.
  unfold Page.known_throw.
  destruct (analyzeInterview_cases env file jd)
    as [(Hk & ->) | [(Hk & Hr & ->) | [(Hk & Hr & v & ->) | (Hk & Hr & c & ->)]]];
    cbn [fst snd In]; split.
  - intros e [= <-]. auto.
  - split; [intros (l & c & []) | discriminate].
  - intros e [= <-]. auto.
  - split; [intros (l & c & [[= ]|[]]) | discriminate].
  - discriminate.
  - split; [intros (l & c & [[= ]|[[= ]|[]]]) | discriminate].
  - intros e [= <-]. auto.
  - split; [reflexivity|]. intros _. exists "Gemini Analysis Error:", c. auto.
Qed.

Lemma analyzeInterview_known_outcome (env : Env) (file : File) (jd : string) :
  Page.known_outcome (fst (analyzeInterview env file jd)).
Proof.
  unfold Page.known_outcome, Page.known_throw.
  destruct (analyzeInterview_cases env file jd)
    as [(Hk & ->) | [(Hk & Hr & ->) | [(Hk & Hr & v & ->) | (Hk & Hr & c & ->)]]];
    cbn [fst]; auto.
Qed.


End ServiceFacts.


(** ** The uploader's handlers *)

Section HandlerFacts.
Import VideoUploader UploaderHandlers.

Lemma validateFile_accepted (file : File) (st : State) :
  fst (validateFile file st) = accepted file.
Proof.
  rewrite validateFile_cases. unfold accepted.
  destruct (Js.startsWith _ _); cbn [negb andb]; [|reflexivity].
  rewrite N.leb_antisym. destruct (_ <? _)%N; reflexivity.
Qed.

Lemma validateFile_known_reason (file : File) (st : State) :
  known_reason (error (snd (validateFile file st))).
Proof.
  rewrite validateFile_cases. unfold known_reason.
  destruct (negb _); [cbn; auto|].
  destruct (_ <? _)%N; cbn; auto.
Qed.

Lemma handleFileChange_selected (files : list File) (st : State)
    (value : string) (v : option File) :
  selected (handleFileChange files st value) = Some v <->
  exists file, v = Some file /\ Js.index files 0 = Some file
               /\ accepted file = true.
Proof.
  unfold handleFileChange.
  destruct (Js.index files 0) as [file|].
  - pose proof (validateFile_accepted file st) as A.
    destruct (validateFile file st) as [ok st1]. cbn [fst] in A. subst ok.
    destruct (accepted file) eqn:A; cbn [selected]; split.
    + intros [= <-]. exists file. auto.
    + intros (f & -> & [= <-] & _). reflexivity.
    + discriminate.
    + intros (f & _ & [= <-] & B). congruence.
  - cbn [selected]. split; [discriminate | intros (f & _ & [= ] & _)].
Qed.

Lemma handleDrop_selected (files : list File) (st : State)
    (input : option string) (v : option File) :
  selected (handleDrop files st input) = Some v <->
  exists file, v = Some file /\ Js.index files 0 = Some file
               /\ accepted file = true.
Proof.
  unfold handleDrop.
  destruct (Js.index files 0) as [file|].
  - pose proof (validateFile_accepted file (setDragActive false st)) as A.
    destruct (validateFile file (setDragActive false st)) as [ok st1].
    cbn [fst] in A. subst ok.
    destruct (accepted file) eqn:A; cbn [selected]; split.
    + intros [= <-]. exists file. auto.
    + intros (f & -> & [= <-] & _). reflexivity.
    + discriminate.
    + intros (f & _ & [= <-] & B). congruence.
  - cbn [selected]. split; [discriminate | intros (f & _ & [= ] & _)].
Qed.

(** X6: the input's change handler and the drop handler look at the first
    file only, and they hand a file to the parent exactly when that first
    file passes validation (type beginning with [video/], at most 52428800
    bytes); neither ever tells the parent that the selection is empty. *)
Theorem handlers_select_accepted (files : list File) (st : State)
    (value : string) (input : option string) (v : option File) :
  (selected (handleFileChange files st value) = Some v <->
   exists file, v = Some file /\ Js.index files 0 = Some file
                /\ Js.startsWith (file_type file) "video/" = true
                /\ (file_size file <= 52428800)%N) /\
  (selected (handleDrop files st input) = Some v <->
   exists file, v = Some file /\ Js.index files 0 = Some file
                /\ Js.startsWith (file_type file) "video/" = true
                /\ (file_size file <= 52428800)%N).
Proof.
  rewrite handleFileChange_selected, handleDrop_selected.
  assert (E : forall file,
             accepted file = true <->
             Js.startsWith (file_type file) "video/" = true
             /\ (file_size file <= 52428800)%N).
  { intros file. unfold accepted.
    rewrite andb_true_iff, N.leb_le. reflexivity. }
  split; split; intros (file & A & B & C); exists file;
    (split; [exact A|]); (split; [exact B|]).
  - apply E in C. exact C.
  - destruct C as [C1 C2]. apply E. auto.
  - apply E in C. exact C.
  - destruct C as [C1 C2]. apply E. auto.
Qed.

(** X7: when the first file fails validation, both handlers keep it from the
    parent and leave the reason in the error slot; the change handler also
    empties the file input, the drop handler leaves the input alone; and a
    drop always ends the drag indication. *)
Theorem handlers_reject (files : list File) (file : File) (st : State)
    (value : string) (input : option string) :
  Js.index files 0 = Some file ->
  accepted file = false ->
  let changed := handleFileChange files st value in
  let dropped := handleDrop files st input in
  let reason :=
    if Js.startsWith (file_type file) "video/" then size_limit_reason
    else type_mismatch_reason in
  selected changed = None /\ selected dropped = None /\
  error (state changed) = Some reason /\
  error (state dropped) = Some reason /\
  input_value changed = Some EmptyString /\
  input_value dropped = input /\
  dragActive (state dropped) = false.
Proof.
  intros F A. cbv zeta. unfold handleFileChange, handleDrop. rewrite F.
  rewrite !validateFile_cases. unfold accepted in A.
  destruct (Js.startsWith _ _); cbn [negb andb] in *.
  - rewrite N.leb_antisym in A. apply negb_false_iff in A. rewrite A.
    cbn. repeat split.
  - cbn. repeat split.
Qed.

Lemma handlers_reject_witness :
  let big := mkFile "talk.mp4" "video/mp4" (60 * 1024 * 1024) [] in
  let st := mkState None true in
  selected (handleFileChange [big] st "C:/fakepath/talk.mp4") = None /\
  input_value (handleFileChange [big] st "C:/fakepath/talk.mp4")
    = Some EmptyString /\
  error (state (handleDrop [big] st None)) = Some size_limit_reason /\
  dragActive (state (handleDrop [big] st None)) = false.
Proof.
  cbv zeta.
  destruct (handlers_reject
              [mkFile "talk.mp4" "video/mp4" (60 * 1024 * 1024) []]
              (mkFile "talk.mp4" "video/mp4" (60 * 1024 * 1024) [])
              (mkState None true) "C:/fakepath/talk.mp4" None
              eq_refl eq_refl)
    as (S1 & _ & _ & E & I & _ & D).
  repeat split; assumption.
Defined.

End HandlerFacts.

(** ** [handleAnalyze] from submission to settlement *)

Section AnalyzeFacts.
Import Types App.

(** X8: what the user sees after a submission settles.  A result is stored
    and the status becomes READY.  A failure sets status ERROR and one of
    three fixed messages: the missing-key text, the fallback text when the
    file could not be read (the reader's event has no message), and the
    generic text for every failure of the remote step; the selected file and
    the description stay as they were, and a report already stored is kept. *)
Theorem handleAnalyze_outcome (env : Env) (file : File) (jd : string)
    (st : State) :
  let outcome := fst (GeminiService.analyzeInterview env file jd) in
  let st' := handleAnalyze_settle outcome st in
  videoFile st' = videoFile st /\ jobDescription st' = jobDescription st /\
  (forall report,
      outcome = Return report ->
      status st' = READY /\ analysisResult st' = Some report /\
      errorMessage st' = errorMessage st) /\
  (forall e,
      outcome = Throw e ->
      status st' = ERROR /\ analysisResult st' = analysisResult st /\
      errorMessage st' =
        Some (if negb (Js.truthy (API_KEY env)) then
                "API Key is missing. Please set it in the environment."
              else if negb (readable env file) then
                "Something went wrong during analysis."
              else
                "Failed to analyze the video. The file might be too large or the format unsupported.")).
Proof.
  cbv zeta.
  destruct (analyzeInterview_cases env file jd)
    as [(Hk & ->) | [(Hk & Hr & ->) | [(Hk & Hr & v & ->) | (Hk & Hr & c & ->)]]];
    rewrite Hk; try rewrite Hr; cbn [fst negb];
    (split; [destruct st; reflexivity|]);
    (split; [destruct st; reflexivity|]);
    (split; [intros report E | intros e E]);
    try discriminate E; injection E as <-; repeat split.
Qed.



(** X10: [handleAnalyze] does not check for a reset before it stores its
    result: if a call that will succeed is outstanding, a reset followed by
    its settlement ends with the report stored and status READY, the file
    and the description cleared by the reset. *)
Theorem reset_does_not_cancel (s : Sys) (report : InterviewAnalysis)
    (before after : list (Outcome InterviewAnalysis)) :
  inflight s = (before ++ Return report :: after)%list ->
  exists s1 s2,
    step s s1 /\ ui s1 = initial /\
    step s1 s2 /\
    status (ui s2) = READY /\ analysisResult (ui s2) = Some report /\
    videoFile (ui s2) = None /\ jobDescription (ui s2) = EmptyString /\
    inflight s2 = (before ++ after)%list.
Proof.
  intros H.
  exists {| ui := handleReset (ui s); inflight := inflight s |}.
  exists {| ui := handleAnalyze_settle (Return report) (handleReset (ui s));
            inflight := (before ++ after)%list |}.
  split; [apply step_reset|]. split; [reflexivity|].
  split; [|repeat split].
  exact (step_settle {| ui := handleReset (ui s); inflight := inflight s |}
           before after (Return report) H).
Qed.

Lemma reset_does_not_cancel_witness :
  let s := {| ui := ui Scenario.waiting;
              inflight := [Return (Json.Object [])] |} in
  exists s1 s2,
    step s s1 /\ ui s1 = initial /\ step s1 s2 /\
    status (ui s2) = READY /\
    analysisResult (ui s2) = Some (Json.Object []).
Proof.
  cbv zeta.
  destruct (reset_does_not_cancel
              {| ui := ui Scenario.waiting;
                 inflight := [Return (Json.Object [])] |}
              (Json.Object []) [] [] eq_refl)
    as (s1 & s2 & A & B & C & D & E & _).
  exists s1, s2. auto.
Defined.

End AnalyzeFacts.


(** ** The page behind its controls *)

Section PageFacts.
Import Types Page.

Lemma invariant_start : invariant start.
Proof.
  unfold invariant, in_step, slots_agree, known_message,
    UploaderHandlers.known_reason. cbn.
  repeat split; auto.
  - left. split; [reflexivity | discriminate].
  - discriminate.
Qed.

(** Events that leave status, report and message alone. *)
Lemma invariant_frame (p : State) (st : App.State) (up : VideoUploader.State) :
  invariant p ->
  App.status st = App.status (app p) ->
  App.analysisResult st = App.analysisResult (app p) ->
  App.errorMessage st = App.errorMessage (app p) ->
  (forall f, App.videoFile st = Some f -> UploaderHandlers.accepted f = true) ->
  UploaderHandlers.known_reason (VideoUploader.error up) ->
  invariant {| app := st; uploader := up;
               outstanding := outstanding p; submitted := submitted p |}.
Proof.
  intros (S & A & O & F & V & M & R) Hs Hr Hm Hv Hu.
  unfold invariant, in_step, slots_agree, report_shown in *. cbn.
  rewrite Hs, Hr, Hm. repeat split; assumption.
Qed.

Lemma selected_accepted (call : option (option File)) (st : App.State) :
  (forall f, App.videoFile st = Some f -> UploaderHandlers.accepted f = true) ->
  (forall f, call = Some (Some f) -> UploaderHandlers.accepted f = true) ->
  forall f, App.videoFile (onFileSelect call st) = Some f ->
            UploaderHandlers.accepted f = true.
Proof.
  intros Hst Hc f. destruct call as [[g|]|]; cbn.
  - intros [= <-]. apply Hc. reflexivity.
  - discriminate.
  - apply Hst.
Qed.

Lemma step_invariant (p p' : State) : step p p' -> invariant p -> invariant p'.
Proof.
  intros H I. destruct H.
  - (* change *)
    apply invariant_frame; try assumption;
      try (subst eff; destruct (UploaderHandlers.selected _) as [[?|]|];
           reflexivity).
    + apply selected_accepted; [apply I|]. intros f Hf.
      apply (handleFileChange_selected files (uploader p) value) in Hf.
      destruct Hf as (g & [= <-] & _ & A). exact A.
    + subst eff. unfold UploaderHandlers.handleFileChange.
      destruct (Js.index files 0) as [file|]; [|apply I].
      pose proof (validateFile_known_reason file (uploader p)) as K.
      destruct (VideoUploader.validateFile file (uploader p)) as [[|] up];
        exact K.
  - (* drop *)
    apply invariant_frame; try assumption;
      try (subst eff; destruct (UploaderHandlers.selected _) as [[?|]|];
           reflexivity).
    + apply selected_accepted; [apply I|]. intros f Hf.
      apply (handleDrop_selected files (uploader p) input) in Hf.
      destruct Hf as (g & [= <-] & _ & A). exact A.
    + subst eff. unfold UploaderHandlers.handleDrop.
      destruct (Js.index files 0) as [file|]; [|apply I].
      pose proof (validateFile_known_reason file
                    (VideoUploader.setDragActive false (uploader p))) as K.
      destruct (VideoUploader.validateFile file _) as [[|] up]; exact K.
  - (* drag *)
    apply invariant_frame; try assumption; try reflexivity; try apply I.
    destruct over; apply I.
  - (* clear *)
    apply invariant_frame; try assumption; try reflexivity.
    + cbn. discriminate.
    + left. reflexivity.
  - (* describe *)
    apply invariant_frame; try assumption; try reflexivity; apply I.
  - (* analyze *)
    destruct I as (S & A & O & F & V & M & R).
    unfold App.handleAnalyze_submit in H1.
    destruct (App.videoFile (app p)) as [g|] eqn:G; [|discriminate].
    injection H1 as <- <- <-.
    unfold invariant, in_step, slots_agree, report_shown in *. cbn.
    unfold analyze_disabled in H0. rewrite G in *.
    repeat split.
    + right. destruct S as [[E N] | ((o & _) & U & _)].
      * rewrite E. split; [eauto|]. split; [reflexivity | exact H].
      * rewrite U in H0. discriminate.
    + exact H.
    + constructor; [apply analyzeInterview_known_outcome | exact O].
    + constructor; [apply V; reflexivity | exact F].
    + exact V.
    + left. reflexivity.
    + exact R.
  - (* settle *)
    destruct I as (S & A & O & F & V & M & R).
    unfold invariant, in_step, slots_agree, report_shown in *.
    destruct S as [[E N] | ((o & E) & U & Sh)].
    { rewrite E in H. destruct before; discriminate. }
    rewrite E in H.
    assert (before = [] /\ after = [] /\ outcome = o) as (-> & -> & ->).
    { destruct before as [|b before]; cbn in H.
      - injection H as -> <-. auto.
      - injection H as _ H. destruct before; discriminate. }
    rewrite U in A. destruct A as [Am _].
    rewrite E in O. apply Forall_inv in O.
    destruct o as [result|e]; cbn.
    + repeat split; try assumption.
      * left. split; [reflexivity | discriminate].
      * eauto.
      * constructor.
    + repeat split; try assumption.
      * left. split; [reflexivity | discriminate].
      * eauto.
      * constructor.
      * unfold known_message. cbn in O. unfold known_throw in O.
        destruct O as [-> | [-> | ->]]; cbn; auto.
  - (* reset *)
    destruct I as (S & A & O & F & V & M & R).
    unfold invariant, in_step, slots_agree, report_shown in *. cbn.
    repeat split; try assumption.
    + left. split; [|discriminate].
      destruct S as [[E _] | (_ & _ & Sh)]; [exact E | congruence].
    + discriminate.
    + left. reflexivity.
    + left. reflexivity.
Qed.

Lemma reachable_invariant (p : State) : reachable p -> invariant p.
Proof.
  induction 1 as [|p p' _ IH H].
  - exact invariant_start.
  - exact (step_invariant _ _ H IH).
Qed.

Lemma reachable_waiting : reachable waiting.
Proof.
  apply (reachable_step picked).
  - apply (reachable_step start); [exact reachable_start|].
    exact (step_change start [Samples.clip] "C:/fakepath/practice.mp4"
             eq_refl eq_refl).
  - exact (step_analyze picked (Samples.answering Samples.solid_response)
             _ Samples.clip EmptyString eq_refl eq_refl eq_refl).
Defined.

(** X11: behind the page's controls at most one call is outstanding at any
    time; one is outstanding exactly while the status is UPLOADING, and
    during that time the analyze button is disabled and no report (hence no
    reset control) is on screen. *)
Theorem page_one_call (p : State) :
  reachable p ->
  length (outstanding p) <= 1 /\
  (outstanding p <> [] <-> App.status (app p) = UPLOADING) /\
  (outstanding p <> [] ->
   analyze_disabled (app p) = true /\ report_shown (app p) = false).
Proof.
  intros H. destruct (reachable_invariant p H) as (S & _).
  destruct S as [[E N] | ((o & E) & U & Sh)]; rewrite E; cbn [length].
  - split; [lia|]. split; [split; [congruence | intros; contradiction]|].
    congruence.
  - split; [lia|]. split; [split; [auto | discriminate]|].
    intros _. split; [|exact Sh].
    unfold analyze_disabled. rewrite U.
    destruct (App.videoFile (app p)); reflexivity.
Qed.

Lemma page_one_call_witness :
  reachable waiting /\
  length (outstanding waiting) <= 1 /\
  analyze_disabled (app waiting) = true.
Proof.
  split; [exact reachable_waiting|].
  destruct (page_one_call waiting reachable_waiting) as (L & _ & D).
  split; [exact L|]. apply D. discriminate.
Defined.

(** X12: behind the page's controls a report on screen means status READY,
    no error message and no outstanding call; and an error message is stored
    exactly in status ERROR, when no report is on screen. *)
Theorem page_report_or_error (p : State) :
  reachable p ->
  (report_shown (app p) = true ->
   App.status (app p) = READY /\ App.errorMessage (app p) = None
   /\ outstanding p = []) /\
  (App.errorMessage (app p) <> None <-> App.status (app p) = ERROR) /\
  (App.status (app p) = ERROR -> report_shown (app p) = false).
Proof.
  intros H. destruct (reachable_invariant p H) as (S & A & _).
  unfold slots_agree in A.
  destruct (App.status (app p)) eqn:St.
  - destruct A as [An Am]. unfold report_shown. rewrite An, Am.
    split; [discriminate|]. split; [|discriminate].
    split; [intros N; now contradiction N | discriminate].
  - destruct A as [Am Sh]. rewrite Sh, Am.
    split; [discriminate|]. split; [|discriminate].
    split; [intros N; now contradiction N | discriminate].
  - destruct A as [_ Am]. rewrite Am.
    split; [|split; [|discriminate]].
    + intros _. split; [reflexivity|]. split; [reflexivity|].
      destruct S as [[E _] | (_ & U & _)]; [exact E | congruence].
    + split; [intros N; now contradiction N | discriminate].
  - destruct A as [(m & Am) Sh]. rewrite Sh, Am.
    split; [discriminate|]. split; [|reflexivity].
    split; [reflexivity | discriminate].
Qed.

Lemma page_report_or_error_witness :
  reachable waiting /\
  (App.errorMessage (app waiting) <> None <->
   App.status (app waiting) = ERROR).
Proof.
  split; [exact reachable_waiting|].
  exact (proj1 (proj2 (page_report_or_error waiting reachable_waiting))).
Defined.

(** X13: behind the page's controls every file handed to [analyzeInterview],
    and the file currently selected, passed validation: its type begins with
    [video/] and its declared size is at most 52428800 bytes. *)
Theorem page_files_accepted (p : State) (f : File) :
  reachable p ->
  In f (submitted p) \/ App.videoFile (app p) = Some f ->
  Js.startsWith (file_type f) "video/" = true /\
  (file_size f <= 52428800)%N.
Proof.
  intros H Hf. destruct (reachable_invariant p H) as (_ & _ & _ & F & V & _).
  assert (A : UploaderHandlers.accepted f = true).
  { destruct Hf as [Hf|Hf]; [|exact (V f Hf)].
    rewrite Forall_forall in F. exact (F f Hf). }
  unfold UploaderHandlers.accepted in A.
  apply andb_true_iff in A as [A1 A2]. apply N.leb_le in A2. auto.
Qed.

Lemma page_files_accepted_witness :
  reachable waiting /\
  In Samples.clip (submitted waiting) /\
  Js.startsWith (file_type Samples.clip) "video/" = true /\
  (file_size Samples.clip <= 52428800)%N.
Proof.
  split; [exact reachable_waiting|].
  assert (I : In Samples.clip (submitted waiting)) by (left; reflexivity).
  split; [exact I|].
  exact (page_files_accepted waiting Samples.clip reachable_waiting
           (or_introl I)).
Defined.

(** X14: behind the page's controls the only texts the two error slots ever
    hold are fixed ones: the uploader's slot one of the two rejection
    reasons, the app's slot the missing-key text, the generic failure text
    or the fallback text; no cause reported by the service or the reader is
    ever shown. *)
Theorem page_messages (p : State) :
  reachable p ->
  known_message (App.errorMessage (app p)) /\
  UploaderHandlers.known_reason (VideoUploader.error (uploader p)).
Proof.
  intros H.
  destruct (reachable_invariant p H) as (_ & _ & _ & _ & _ & M & R).
  split; assumption.
Qed.

Lemma page_messages_witness :
  reachable waiting /\
  known_message (App.errorMessage (app waiting)).
Proof.
  split; [exact reachable_waiting|].
  exact (proj1 (page_messages waiting reachable_waiting)).
Defined.

End PageFacts.
